(** * The point-cloud based occupancy grid map node

    A shallow embedding of
    [perception/probabilistic_occupancy_grid_map/src/pointcloud_based_occupancy_grid_map/pointcloud_based_occupancy_grid_map_node.cpp]:
    the constructor of [PointcloudBasedOccupancyGridMapNode], the callback
    [onPointcloudWithObstacleAndRaw] and the message builder
    [OccupancyGridMapToMsgPtr].

    The node is glue: the grid engine ([OccupancyGridMap],
    [OccupancyGridMapBBFUpdater]), the point-cloud helpers of [utils] and the
    quantization table of [cost_value.hpp] are declared in headers that are
    not part of this translation unit.  They appear below as the fields of
    the class [Collaborators]; every theorem holds for every implementation
    of that interface unless it says otherwise. *)

From Stdlib Require Import ZArith List String Bool Lia.
From Stdlib Require Import Floats.
Import ListNotations.

Local Open Scope Z_scope.

(** ** Numbers *)

(** [double] is IEEE binary64, the kernel's primitive float. *)
Definition double : Set := PrimFloat.float.

(** Conversion of a [double] to a C++ [float] (binary32, round to nearest
    even), kept as the [double] that holds the same value. *)
Definition to_float32 (d : double) : double :=
  match Prim2SF d with
  | S754_finite s m e => SF2Prim (binary_round 24 128 s m e)
  | _ => d
  end.

(** Product of two [unsigned int] (32 bit), with its wrap-around. *)
Definition mul_u32 (a b : Z) : Z := (a * b) mod 2 ^ 32.

(** ** ROS messages *)

Record Time := mkTime { sec : Z; nanosec : Z }.

Record Header := mkHeader { stamp : Time; frame_id : string }.

Record Point := mkPoint { x : double; y : double; z : double }.

Record Quaternion := mkQuaternion
  { qx : double; qy : double; qz : double; qw : double }.

Record Pose := mkPose { position : Point; orientation : Quaternion }.

(** [resolution] is a [float32] field: what is assigned to it is narrowed
    to a [float]. *)
Record MapMetaData := mkMapMetaData
  { map_load_time : Time;
    resolution : double;
    width : Z;
    height : Z;
    origin : Pose }.

(** [data] holds one signed byte per cell. *)
Record OccupancyGrid := mkOccupancyGrid
  { header : Header; info : MapMetaData; data : list Z }.

(** ** Costmap2D

    The base class of both grids.  The node reads it through
    [getSizeInCellsX], [getSizeInCellsY], [getResolution], [getOriginX],
    [getOriginY] and [getCharMap]; the record has one field per accessor.
    Cells are [unsigned char]. *)
Record Costmap2D := mkCostmap2D
  { size_x_ : Z;
    size_y_ : Z;
    resolution_ : double;
    origin_x_ : double;
    origin_y_ : double;
    costmap_ : list Z }.

Definition getSizeInCellsX (g : Costmap2D) : Z := size_x_ g.
Definition getSizeInCellsY (g : Costmap2D) : Z := size_y_ g.
Definition getResolution (g : Costmap2D) : double := resolution_ g.
Definition getOriginX (g : Costmap2D) : double := origin_x_ g.
Definition getOriginY (g : Costmap2D) : double := origin_y_ g.
Definition getCharMap (g : Costmap2D) : list Z := costmap_ g.

(** Costmap2D stores its cells row by row: cell [(mx, my)] is at
    [my * size_x_ + mx]. *)
Definition getIndex (g : Costmap2D) (mx my : Z) : Z := my * size_x_ g + mx.

Definition getCost (g : Costmap2D) (mx my : Z) : Z :=
  nth (Z.to_nat (getIndex g mx my)) (costmap_ g) 0.

(** Costmap2D allocates [size_x_ * size_y_] cells (an [unsigned int]
    product) and every method keeps the buffer that long.  A grid that
    violates this is not a Costmap2D object; reading it as
    [OccupancyGridMapToMsgPtr] does would run past the buffer. *)
Definition allocated (g : Costmap2D) : Prop :=
  0 <= size_x_ g < 2 ^ 32 /\ 0 <= size_y_ g < 2 ^ 32 /\
  List.length (costmap_ g) = Z.to_nat (mul_u32 (size_x_ g) (size_y_ g)).

(** ** Node parameters

    [declare_parameter] returns the override the host supplied for the name
    or, when there is none, the default; an override of another type than
    the default's makes it throw, which ends the construction. *)
Inductive ParameterValue :=
| PString (s : string)
| PBool (b : bool)
| PDouble (d : double).

Definition NodeOptions := string -> option ParameterValue.

Definition declare_parameter_string
    (opts : NodeOptions) (name default : string) : option string :=
  match opts name with
  | None => Some default
  | Some (PString s) => Some s
  | Some _ => None
  end.

Definition declare_parameter_bool
    (opts : NodeOptions) (name : string) (default : bool) : option bool :=
  match opts name with
  | None => Some default
  | Some (PBool b) => Some b
  | Some _ => None
  end.

Definition declare_parameter_double
    (opts : NodeOptions) (name : string) (default : double) : option double :=
  match opts name with
  | None => Some default
  | Some (PDouble d) => Some d
  | Some _ => None
  end.

(** ** The collaborators of the node

    What the node calls and this file does not define.  A lookup that
    throws [tf2::TransformException] returns the exception's [what()] on the
    right.  The two helpers with an output argument and a [bool] result
    return the output when the result is [true]; the node never reads the
    output after a [false]. *)
Class Collaborators := {
  PointCloud2 : Type;
  pc_header : PointCloud2 -> Header;
  (** [PointCloud2{}] *)
  PointCloud2_empty : PointCloud2;
  (** the contents of the transform buffer [*tf2_] when a callback runs *)
  Buffer : Type;
  (** [utils::cropPointcloudByHeight (input, tf2, target_frame, min_height,
      max_height, output)] *)
  cropPointcloudByHeight :
    PointCloud2 -> Buffer -> string -> double -> double -> option PointCloud2;
  (** [utils::extractCommonPointCloud (obstacle_pc, raw_pc, output)] *)
  extractCommonPointCloud : PointCloud2 -> PointCloud2 -> option PointCloud2;
  (** [utils::getPose (header, tf2, target_frame)] *)
  getPose_header : Header -> Buffer -> string -> Pose + string;
  (** [utils::getPose (stamp, tf2, source_frame, target_frame)] *)
  getPose_stamp : Time -> Buffer -> string -> string -> Pose + string;
  (** [Costmap2D::getSizeInMetersX], [Costmap2D::getSizeInMetersY] *)
  getSizeInMetersX : Costmap2D -> double;
  getSizeInMetersY : Costmap2D -> double;
  (** the constructor [OccupancyGridMap (cells_size_x, cells_size_y,
      resolution)], as the grid it makes *)
  OccupancyGridMap : Z -> Z -> double -> Costmap2D;
  (** [OccupancyGridMap::updateOrigin (new_origin_x, new_origin_y)], as the
      grid it leaves behind *)
  updateOrigin : Costmap2D -> double -> double -> Costmap2D;
  (** [OccupancyGridMap::updateWithPointCloud (raw, obstacle, robot_pose,
      scan_origin)], as the grid it leaves behind *)
  updateWithPointCloud :
    Costmap2D -> PointCloud2 -> PointCloud2 -> Pose -> Pose -> Costmap2D;
  (** the persistent map: an [OccupancyGridMapBBFUpdater], a Costmap2D with
      whatever the filter keeps besides *)
  Updater : Type;
  updater_costmap : Updater -> Costmap2D;
  (** its constructor, applied to the node's three [double] arguments *)
  OccupancyGridMapBBFUpdater : double -> double -> double -> Updater;
  (** [OccupancyGridMapBBFUpdater::update (single_frame_occupancy_grid_map)] *)
  update : Updater -> Costmap2D -> Updater;
  (** [occupancy_cost_value::cost_translation_table], from [unsigned char]
      to [char] *)
  cost_translation_table : Z -> Z;
  (** [occupancy_cost_value::NO_INFORMATION] *)
  NO_INFORMATION : Z
}.

(** How a step of a callback ends: it goes on with a value, or the callback
    returns. *)
Inductive Flow (A : Type) :=
| Next (a : A)
| Return.

Arguments Next {A} a.
Arguments Return {A}.

Section Node.

Context {host : Collaborators}.

(** ** The node *)

Record Node := mkNode
  { map_frame_ : string;
    base_link_frame_ : string;
    gridmap_origin_frame_ : string;
    scan_origin_frame_ : string;
    use_height_filter_ : bool;
    enable_single_frame_mode_ : bool;
    filter_obstacle_pointcloud_by_raw_pointcloud_ : bool;
    occupancy_grid_map_updater_ptr_ : Updater }.

(** The configuration of a node: every member the constructor fills from a
    parameter. *)
Record Config := mkConfig
  { cfg_map_frame : string;
    cfg_base_link_frame : string;
    cfg_gridmap_origin_frame : string;
    cfg_scan_origin_frame : string;
    cfg_use_height_filter : bool;
    cfg_enable_single_frame_mode : bool;
    cfg_filter_obstacle_pointcloud_by_raw_pointcloud : bool }.

Definition config_of (n : Node) : Config :=
  {| cfg_map_frame := map_frame_ n;
     cfg_base_link_frame := base_link_frame_ n;
     cfg_gridmap_origin_frame := gridmap_origin_frame_ n;
     cfg_scan_origin_frame := scan_origin_frame_ n;
     cfg_use_height_filter := use_height_filter_ n;
     cfg_enable_single_frame_mode := enable_single_frame_mode_ n;
     cfg_filter_obstacle_pointcloud_by_raw_pointcloud :=
       filter_obstacle_pointcloud_by_raw_pointcloud_ n |}.

Definition set_updater (u : Updater) (n : Node) : Node :=
  {| map_frame_ := map_frame_ n;
     base_link_frame_ := base_link_frame_ n;
     gridmap_origin_frame_ := gridmap_origin_frame_ n;
     scan_origin_frame_ := scan_origin_frame_ n;
     use_height_filter_ := use_height_filter_ n;
     enable_single_frame_mode_ := enable_single_frame_mode_ n;
     filter_obstacle_pointcloud_by_raw_pointcloud_ :=
       filter_obstacle_pointcloud_by_raw_pointcloud_ n;
     occupancy_grid_map_updater_ptr_ := u |}.

(** The constructor.  The subscriptions, the publisher and the stop watch
    hold no data of the model.  [map_length] and [map_resolution] are locals
    of the constructor: they reach the persistent map and nothing else. *)
Definition PointcloudBasedOccupancyGridMapNode
    (node_options : NodeOptions) : option Node :=
  match declare_parameter_string node_options "map_frame" "map" with
  | None => None
  | Some map_frame =>
  match declare_parameter_string node_options "base_link_frame" "base_link" with
  | None => None
  | Some base_link_frame =>
  match declare_parameter_string node_options "gridmap_origin_frame" "base_link" with
  | None => None
  | Some gridmap_origin_frame =>
  match declare_parameter_string node_options "scan_origin_frame" "base_link" with
  | None => None
  | Some scan_origin_frame =>
  match declare_parameter_bool node_options "use_height_filter" true with
  | None => None
  | Some use_height_filter =>
  match declare_parameter_bool node_options "enable_single_frame_mode" false with
  | None => None
  | Some enable_single_frame_mode =>
  match declare_parameter_bool node_options
          "filter_obstacle_pointcloud_by_raw_pointcloud" false with
  | None => None
  | Some filter_obstacle_pointcloud_by_raw_pointcloud =>
  match declare_parameter_double node_options "map_length" 100%float with
  | None => None
  | Some map_length' =>
  match declare_parameter_double node_options "map_resolution" 0.5%float with
  | None => None
  | Some map_resolution =>
    Some
      {| map_frame_ := map_frame;
         base_link_frame_ := base_link_frame;
         gridmap_origin_frame_ := gridmap_origin_frame;
         scan_origin_frame_ := scan_origin_frame;
         use_height_filter_ := use_height_filter;
         enable_single_frame_mode_ := enable_single_frame_mode;
         filter_obstacle_pointcloud_by_raw_pointcloud_ :=
           filter_obstacle_pointcloud_by_raw_pointcloud;
         occupancy_grid_map_updater_ptr_ :=
           OccupancyGridMapBBFUpdater
             (PrimFloat.div map_length' map_resolution)
             (PrimFloat.div map_length' map_resolution)
             map_resolution |}
  end end end end end end end end end.

(** ** Callbacks

    A callback reads and writes the members of the node, calls its
    collaborators and may end early with [return;].  Every call on a
    collaborator, on a grid, on the logger or on the publisher is recorded,
    in the order of the calls, with what the call returned or left behind:
    "invoked", "built" and "published" are statements about this record. *)
Inductive Call :=
| Call_cropPointcloudByHeight (input : PointCloud2) (output : option PointCloud2)
| Call_extractCommonPointCloud
    (obstacle_pc raw_pc : PointCloud2) (output : option PointCloud2)
| Call_getPose (result : Pose + string)
| Call_RCLCPP_WARN (what : string)
| Call_OccupancyGridMap
    (cells_size_x cells_size_y : Z) (resolution : double) (g : Costmap2D)
| Call_updateOrigin (new_origin_x new_origin_y : double) (g : Costmap2D)
| Call_updateWithPointCloud
    (before : Costmap2D) (raw_pc obstacle_pc : PointCloud2)
    (robot_pose scan_origin : Pose) (g : Costmap2D)
| Call_update (single_frame : Costmap2D)
| Call_OccupancyGridMapToMsgPtr (g : Costmap2D)
| Call_publish (msg : OccupancyGrid).

Definition Callback (A : Type) : Type := Node -> Flow A * Node * list Call.

Definition ret {A} (a : A) : Callback A := fun n => (Next a, n, []).

Definition bind {A B} (m : Callback A) (f : A -> Callback B) : Callback B :=
  fun n =>
    match m n with
    | (Next a, n1, l1) =>
        match f a n1 with
        | (r, n2, l2) => (r, n2, l1 ++ l2)
        end
    | (Return, n1, l1) => (Return, n1, l1)
    end.

Notation "x <- m ;; k" := (bind m (fun x => k))
  (at level 61, m at next level, right associativity).
Notation "m ;;; k" := (bind m (fun _ => k))
  (at level 61, right associativity).

(** [return;] *)
Definition return_ {A} : Callback A := fun n => (Return, n, []).

(** reading a member of [this] *)
Definition member {A} (f : Node -> A) : Callback A :=
  fun n => (Next (f n), n, []).

(** a call that changes no member: its result and its record *)
Definition call {A} (r : A) (c : Call) : Callback A :=
  fun n => (Next r, n, [c]).

Definition do_cropPointcloudByHeight
    (input : PointCloud2) (tf2 : Buffer) (target_frame : string)
    (min_height max_height : double) : Callback (option PointCloud2) :=
  let output :=
    cropPointcloudByHeight input tf2 target_frame min_height max_height in
  call output (Call_cropPointcloudByHeight input output).

Definition do_extractCommonPointCloud
    (obstacle_pc raw_pc : PointCloud2) : Callback (option PointCloud2) :=
  let output := extractCommonPointCloud obstacle_pc raw_pc in
  call output (Call_extractCommonPointCloud obstacle_pc raw_pc output).

Definition do_getPose (result : Pose + string) : Callback (Pose + string) :=
  call result (Call_getPose result).

Definition RCLCPP_WARN_STREAM (what : string) : Callback unit :=
  call tt (Call_RCLCPP_WARN what).

Definition new_OccupancyGridMap
    (cells_size_x cells_size_y : Z) (resolution : double)
    : Callback Costmap2D :=
  let g := OccupancyGridMap cells_size_x cells_size_y resolution in
  call g (Call_OccupancyGridMap cells_size_x cells_size_y resolution g).

Definition do_updateOrigin
    (g : Costmap2D) (new_origin_x new_origin_y : double) : Callback Costmap2D :=
  let g' := updateOrigin g new_origin_x new_origin_y in
  call g' (Call_updateOrigin new_origin_x new_origin_y g').

Definition do_updateWithPointCloud
    (g : Costmap2D) (raw_pc obstacle_pc : PointCloud2)
    (robot_pose scan_origin : Pose) : Callback Costmap2D :=
  let g' := updateWithPointCloud g raw_pc obstacle_pc robot_pose scan_origin in
  call g'
    (Call_updateWithPointCloud g raw_pc obstacle_pc robot_pose scan_origin g').

(** [occupancy_grid_map_updater_ptr_->update (single_frame)]: the one
    operation that writes the persistent map. *)
Definition do_update (single_frame : Costmap2D) : Callback unit :=
  fun n =>
    (Next tt,
     set_updater (update (occupancy_grid_map_updater_ptr_ n) single_frame) n,
     [Call_update single_frame]).

Definition publish (msg : OccupancyGrid) : Callback unit :=
  call tt (Call_publish msg).

(** ** OccupancyGridMapToMsgPtr

    [robot_pose_z] is a [const float &].  [info.resolution] is a [float32]:
    the [double] that [getResolution] returns is narrowed when it is
    assigned.  [mapToWorld (0, 0, wx, wy)] is a const call whose results are
    not used.  The loop reads [data[i]] for
    every [i] below [width * height], the product taken in [uint32]; on an
    [allocated] grid these are exactly the cells. *)
Definition OccupancyGridMapToMsgPtr
    (frame_id : string) (stamp : Time) (robot_pose_z : double)
    (occupancy_grid_map : Costmap2D) : OccupancyGrid :=
  let width := getSizeInCellsX occupancy_grid_map in
  let height := getSizeInCellsY occupancy_grid_map in
  let data := getCharMap occupancy_grid_map in
  {| header := {| stamp := stamp; frame_id := frame_id |};
     info :=
       {| map_load_time := {| sec := 0; nanosec := 0 |};
          resolution := to_float32 (getResolution occupancy_grid_map);
          width := width;
          height := height;
          origin :=
            {| position :=
                 {| x := getOriginX occupancy_grid_map;
                    y := getOriginY occupancy_grid_map;
                    z := robot_pose_z |};
               orientation :=
                 {| qx := 0%float; qy := 0%float; qz := 0%float;
                    qw := 1%float |} |} |};
     data :=
       map (fun i => cost_translation_table (nth i data 0))
           (seq 0 (Z.to_nat (mul_u32 width height))) |}.

Definition do_OccupancyGridMapToMsgPtr
    (frame_id : string) (stamp : Time) (robot_pose_z : double)
    (occupancy_grid_map : Costmap2D) : Callback OccupancyGrid :=
  call (OccupancyGridMapToMsgPtr frame_id stamp robot_pose_z occupancy_grid_map)
       (Call_OccupancyGridMapToMsgPtr occupancy_grid_map).

(** ** onPointcloudWithObstacleAndRaw

    The stop watch and the debug publisher (timing only) are left out. *)

(** "Apply height filter": the two cropped clouds. *)
Definition apply_height_filter
    (tf2 : Buffer) (input_obstacle_msg input_raw_msg : PointCloud2)
    : Callback (PointCloud2 * PointCloud2) :=
  use_height_filter <- member use_height_filter_ ;;
  if use_height_filter : bool then
    let min_height := (-1)%float in
    let max_height := 2%float in
    base_link_frame <- member base_link_frame_ ;;
    o <- do_cropPointcloudByHeight
           input_obstacle_msg tf2 base_link_frame min_height max_height ;;
    match o with
    | None => return_
    | Some cropped_obstacle_pc =>
        r <- do_cropPointcloudByHeight
               input_raw_msg tf2 base_link_frame min_height max_height ;;
        match r with
        | None => return_
        | Some cropped_raw_pc => ret (cropped_obstacle_pc, cropped_raw_pc)
        end
    end
  else ret (PointCloud2_empty, PointCloud2_empty).

(** "Filter obstacle pointcloud by raw pointcloud". *)
Definition filter_obstacle_by_raw
    (filtered_obstacle_pc filtered_raw_pc : PointCloud2)
    : Callback PointCloud2 :=
  filter_by_raw <- member filter_obstacle_pointcloud_by_raw_pointcloud_ ;;
  if filter_by_raw : bool then
    c <- do_extractCommonPointCloud filtered_obstacle_pc filtered_raw_pc ;;
    match c with
    | None => ret filtered_obstacle_pc
    | Some filtered_obstacle_pc_common => ret filtered_obstacle_pc_common
    end
  else ret filtered_obstacle_pc.

(** "Get from map to sensor frame pose": the [try] block and its handler. *)
Definition get_poses
    (tf2 : Buffer) (input_raw_msg : PointCloud2)
    : Callback (Pose * Pose * Pose) :=
  map_frame <- member map_frame_ ;;
  gridmap_origin_frame <- member gridmap_origin_frame_ ;;
  scan_origin_frame <- member scan_origin_frame_ ;;
  r1 <- do_getPose (getPose_header (pc_header input_raw_msg) tf2 map_frame) ;;
  match r1 with
  | inr ex => RCLCPP_WARN_STREAM ex ;;; return_
  | inl robot_pose =>
      r2 <- do_getPose
              (getPose_stamp (stamp (pc_header input_raw_msg)) tf2
                 gridmap_origin_frame map_frame) ;;
      match r2 with
      | inr ex => RCLCPP_WARN_STREAM ex ;;; return_
      | inl gridmap_origin =>
          r3 <- do_getPose
                  (getPose_stamp (stamp (pc_header input_raw_msg)) tf2
                     scan_origin_frame map_frame) ;;
          match r3 with
          | inr ex => RCLCPP_WARN_STREAM ex ;;; return_
          | inl scan_origin => ret (robot_pose, gridmap_origin, scan_origin)
          end
      end
  end.

(** "Create single frame occupancy grid map", up to [updateOrigin]. *)
Definition create_single_frame (gridmap_origin : Pose) : Callback Costmap2D :=
  updater <- member occupancy_grid_map_updater_ptr_ ;;
  g <- new_OccupancyGridMap
         (getSizeInCellsX (updater_costmap updater))
         (getSizeInCellsY (updater_costmap updater))
         (getResolution (updater_costmap updater)) ;;
  do_updateOrigin g
    (PrimFloat.sub (x (position gridmap_origin))
       (PrimFloat.div (getSizeInMetersX g) 2%float))
    (PrimFloat.sub (y (position gridmap_origin))
       (PrimFloat.div (getSizeInMetersY g) 2%float)).

Definition onPointcloudWithObstacleAndRaw
    (tf2 : Buffer) (input_obstacle_msg input_raw_msg : PointCloud2)
    : Callback unit :=
  (* Apply height filter *)
  cropped <- apply_height_filter tf2 input_obstacle_msg input_raw_msg ;;
  use_height_filter <- member use_height_filter_ ;;
  let filtered_obstacle_pc :=
    if use_height_filter : bool then fst cropped else input_obstacle_msg in
  let filtered_raw_pc :=
    if use_height_filter : bool then snd cropped else input_raw_msg in
  (* Filter obstacle pointcloud by raw pointcloud *)
  filtered_obstacle_pc_common <-
    filter_obstacle_by_raw filtered_obstacle_pc filtered_raw_pc ;;
  (* Get from map to sensor frame pose *)
  poses <- get_poses tf2 input_raw_msg ;;
  let robot_pose := fst (fst poses) in
  let gridmap_origin := snd (fst poses) in
  let scan_origin := snd poses in
  (* Create single frame occupancy grid map *)
  g <- create_single_frame gridmap_origin ;;
  single_frame_occupancy_grid_map <-
    do_updateWithPointCloud
      g filtered_raw_pc filtered_obstacle_pc_common robot_pose scan_origin ;;
  map_frame <- member map_frame_ ;;
  enable_single_frame_mode <- member enable_single_frame_mode_ ;;
  if enable_single_frame_mode : bool then
    (* publish *)
    msg <- do_OccupancyGridMapToMsgPtr
             map_frame (stamp (pc_header input_raw_msg))
             (to_float32 (z (position robot_pose)))
             single_frame_occupancy_grid_map ;;
    publish msg
  else
    (* Update with bayes filter *)
    do_update single_frame_occupancy_grid_map ;;;
    (* publish *)
    updater <- member occupancy_grid_map_updater_ptr_ ;;
    msg <- do_OccupancyGridMapToMsgPtr
             map_frame (stamp (pc_header input_raw_msg))
             (to_float32 (z (position robot_pose)))
             (updater_costmap updater) ;;
    publish msg.

(** One cycle: the node after the callback and the record of its calls. *)
Definition cycle
    (n : Node) (tf2 : Buffer) (input_obstacle_msg input_raw_msg : PointCloud2)
    : Node * list Call :=
  match onPointcloudWithObstacleAndRaw tf2 input_obstacle_msg input_raw_msg n with
  | (_, n', calls) => (n', calls)
  end.

(** What the synchronizer hands to one callback, with the transform buffer
    as it is then. *)
Record Inputs := mkInputs
  { in_tf2 : Buffer;
    in_obstacle : PointCloud2;
    in_raw : PointCloud2 }.

(** The node over a sequence of synchronized pairs, one callback at a time. *)
Fixpoint spin (n : Node) (inputs : list Inputs) : Node * list Call :=
  match inputs with
  | [] => (n, [])
  | i :: rest =>
      let '(n1, l1) := cycle n (in_tf2 i) (in_obstacle i) (in_raw i) in
      let '(n2, l2) := spin n1 rest in
      (n2, l1 ++ l2)
  end.

(** ** Reading the record of calls *)

(** the grids the constructor of [OccupancyGridMap] made *)
Fixpoint created (calls : list Call) : list Costmap2D :=
  match calls with
  | [] => []
  | Call_OccupancyGridMap _ _ _ g :: rest => g :: created rest
  | _ :: rest => created rest
  end.

(** the arguments of the constructor of [OccupancyGridMap] *)
Fixpoint constructed_with (calls : list Call) : list (Z * Z * double) :=
  match calls with
  | [] => []
  | Call_OccupancyGridMap cells_size_x cells_size_y resolution _ :: rest =>
      (cells_size_x, cells_size_y, resolution) :: constructed_with rest
  | _ :: rest => constructed_with rest
  end.

(** the arguments of [updateOrigin] *)
Fixpoint origin_set_to (calls : list Call) : list (double * double) :=
  match calls with
  | [] => []
  | Call_updateOrigin new_origin_x new_origin_y _ :: rest =>
      (new_origin_x, new_origin_y) :: origin_set_to rest
  | _ :: rest => origin_set_to rest
  end.

(** the grids handed to [updateWithPointCloud], as they were before it *)
Fixpoint handed_to_raycaster (calls : list Call) : list Costmap2D :=
  match calls with
  | [] => []
  | Call_updateWithPointCloud before _ _ _ _ _ :: rest =>
      before :: handed_to_raycaster rest
  | _ :: rest => handed_to_raycaster rest
  end.

(** the single-frame grids [updateWithPointCloud] left behind, each with
    the robot pose it was given *)
Fixpoint filled (calls : list Call) : list (Pose * Costmap2D) :=
  match calls with
  | [] => []
  | Call_updateWithPointCloud _ _ _ robot_pose _ g :: rest =>
      (robot_pose, g) :: filled rest
  | _ :: rest => filled rest
  end.

(** the clouds [updateWithPointCloud] was given: (raw, obstacle) *)
Fixpoint raycast_clouds (calls : list Call) : list (PointCloud2 * PointCloud2) :=
  match calls with
  | [] => []
  | Call_updateWithPointCloud _ raw_pc obstacle_pc _ _ _ :: rest =>
      (raw_pc, obstacle_pc) :: raycast_clouds rest
  | _ :: rest => raycast_clouds rest
  end.

(** the grids [update] fused into the persistent map *)
Fixpoint fused (calls : list Call) : list Costmap2D :=
  match calls with
  | [] => []
  | Call_update g :: rest => g :: fused rest
  | _ :: rest => fused rest
  end.

(** the grids [OccupancyGridMapToMsgPtr] quantized *)
Fixpoint quantized (calls : list Call) : list Costmap2D :=
  match calls with
  | [] => []
  | Call_OccupancyGridMapToMsgPtr g :: rest => g :: quantized rest
  | _ :: rest => quantized rest
  end.

(** the messages published *)
Fixpoint published (calls : list Call) : list OccupancyGrid :=
  match calls with
  | [] => []
  | Call_publish msg :: rest => msg :: published rest
  | _ :: rest => published rest
  end.

(** the warnings logged *)
Fixpoint warned (calls : list Call) : list string :=
  match calls with
  | [] => []
  | Call_RCLCPP_WARN what :: rest => what :: warned rest
  | _ :: rest => warned rest
  end.

Definition is_crop (c : Call) : bool :=
  match c with
  | Call_cropPointcloudByHeight _ _ => true
  | _ => false
  end.

Definition is_extract (c : Call) : bool :=
  match c with
  | Call_extractCommonPointCloud _ _ _ => true
  | _ => false
  end.

(** a call on a grid, on the updater or on the publisher *)
Definition is_grid_call (c : Call) : bool :=
  match c with
  | Call_OccupancyGridMap _ _ _ _
  | Call_updateOrigin _ _ _
  | Call_updateWithPointCloud _ _ _ _ _ _
  | Call_update _
  | Call_OccupancyGridMapToMsgPtr _
  | Call_publish _ => true
  | _ => false
  end.

(** ** Vocabulary of the properties *)

(** The message the node publishes for a grid, at the stamp of the raw
    cloud and the height of the robot pose. *)
Definition output_of
    (n : Node) (input_raw_msg : PointCloud2) (frame : Pose * Costmap2D)
    : OccupancyGrid :=
  OccupancyGridMapToMsgPtr
    (map_frame_ n) (stamp (pc_header input_raw_msg))
    (to_float32 (z (position (fst frame)))) (snd frame).

(** One of the three lookups of the [try] block throws. *)
Definition pose_lookup_fails
    (n : Node) (tf2 : Buffer) (input_raw_msg : PointCloud2) : Prop :=
  (exists ex,
     getPose_header (pc_header input_raw_msg) tf2 (map_frame_ n) = inr ex) \/
  (exists ex,
     getPose_stamp (stamp (pc_header input_raw_msg)) tf2
       (gridmap_origin_frame_ n) (map_frame_ n) = inr ex) \/
  (exists ex,
     getPose_stamp (stamp (pc_header input_raw_msg)) tf2
       (scan_origin_frame_ n) (map_frame_ n) = inr ex).

(** The three lookups of the [try] block return these poses. *)
Definition poses_resolve
    (n : Node) (tf2 : Buffer) (input_raw_msg : PointCloud2)
    (robot_pose gridmap_origin scan_origin : Pose) : Prop :=
  getPose_header (pc_header input_raw_msg) tf2 (map_frame_ n) = inl robot_pose /\
  getPose_stamp (stamp (pc_header input_raw_msg)) tf2
    (gridmap_origin_frame_ n) (map_frame_ n) = inl gridmap_origin /\
  getPose_stamp (stamp (pc_header input_raw_msg)) tf2
    (scan_origin_frame_ n) (map_frame_ n) = inl scan_origin.

(** The crop the node asks for: the band from -1.0 to 2.0 in the base link
    frame. *)
Definition crop_to_band
    (n : Node) (tf2 : Buffer) (input : PointCloud2) : option PointCloud2 :=
  cropPointcloudByHeight input tf2 (base_link_frame_ n) (-1)%float 2%float.

(** [fo] and [fr] are the obstacle and raw clouds after the height filter. *)
Definition height_filtered
    (n : Node) (tf2 : Buffer) (input_obstacle_msg input_raw_msg : PointCloud2)
    (fo fr : PointCloud2) : Prop :=
  if use_height_filter_ n
  then crop_to_band n tf2 input_obstacle_msg = Some fo /\
       crop_to_band n tf2 input_raw_msg = Some fr
  else fo = input_obstacle_msg /\ fr = input_raw_msg.

(** [msg] is a snapshot of [g]: its dimensions and origin, its resolution
    narrowed to a [float] (the resolution itself when a [float] holds it),
    and one quantized value per cell in the order of the cell array, which
    is row by row. *)
Definition snapshot_of (msg : OccupancyGrid) (g : Costmap2D) : Prop :=
  width (info msg) = getSizeInCellsX g /\
  height (info msg) = getSizeInCellsY g /\
  resolution (info msg) = to_float32 (getResolution g) /\
  (to_float32 (getResolution g) = getResolution g ->
   resolution (info msg) = getResolution g) /\
  x (position (origin (info msg))) = getOriginX g /\
  y (position (origin (info msg))) = getOriginY g /\
  List.length (data msg) =
    Z.to_nat (mul_u32 (width (info msg)) (height (info msg))) /\
  (allocated g ->
   data msg = map cost_translation_table (getCharMap g) /\
   (getSizeInCellsX g * getSizeInCellsY g < 2 ^ 32 ->
    List.length (data msg) = Z.to_nat (width (info msg) * height (info msg)) /\
    forall mx my,
      0 <= mx < getSizeInCellsX g -> 0 <= my < getSizeInCellsY g ->
      nth_error (data msg) (Z.to_nat (getIndex g mx my)) =
        Some (cost_translation_table (getCost g mx my)))).

(** Modelled from the spec: when the Grid operation create fails.  "Fails
    with InvalidDimension if width, height, or resolution <= 0." *)
Definition InvalidDimension
    (cells_size_x cells_size_y : Z) (resolution : double) : bool :=
  (cells_size_x <=? 0) || (cells_size_y <=? 0)
  || PrimFloat.leb resolution 0%float.

(** Modelled from the spec: the Grid operation create, which the constructor
    of [OccupancyGridMap] stands for and which is missing here.
    "create(width, height, resolution): allocates all cells as Unknown.
    Fails with InvalidDimension if width, height, or resolution <= 0."
    [None] is the failure.  The cells are counted as Costmap2D counts them,
    in 32 bits.  The spec does not say where a new grid lies; the node sets
    the origin before anything reads it, and (0, 0) stands here. *)
Definition create
    (cells_size_x cells_size_y : Z) (resolution : double) : option Costmap2D :=
  if InvalidDimension cells_size_x cells_size_y resolution
  then None
  else
    Some
      {| size_x_ := cells_size_x;
         size_y_ := cells_size_y;
         resolution_ := resolution;
         origin_x_ := 0%float;
         origin_y_ := 0%float;
         costmap_ :=
           repeat NO_INFORMATION
             (Z.to_nat (mul_u32 cells_size_x cells_size_y)) |}.

(** Modelled from the spec: the Grid operation setOrigin, which
    [OccupancyGridMap::updateOrigin] stands for and which is missing here.
    "setOrigin(x, y): repositions the grid without touching cell
    contents." *)
Definition setOrigin
    (g : Costmap2D) (new_origin_x new_origin_y : double) : Costmap2D :=
  {| size_x_ := size_x_ g;
     size_y_ := size_y_ g;
     resolution_ := resolution_ g;
     origin_x_ := new_origin_x;
     origin_y_ := new_origin_y;
     costmap_ := costmap_ g |}.

(** Modelled from the spec: the grid engine of the host is the Grid of the
    spec.  Whenever create does not fail, the constructor makes the grid
    create gives, and [updateOrigin] is setOrigin.  Of a constructor called
    with dimensions on which create fails this says nothing. *)
Definition grid_as_specified : Prop :=
  (forall cells_size_x cells_size_y resolution g,
     create cells_size_x cells_size_y resolution = Some g ->
     OccupancyGridMap cells_size_x cells_size_y resolution = g) /\
  (forall g new_origin_x new_origin_y,
     updateOrigin g new_origin_x new_origin_y =
     setOrigin g new_origin_x new_origin_y).

(** The single-frame grid of a cycle as the constructor makes it, for a
    grid as large and as fine as the persistent map. *)
Definition fresh_grid (n : Node) : Costmap2D :=
  let persistent := updater_costmap (occupancy_grid_map_updater_ptr_ n) in
  OccupancyGridMap
    (getSizeInCellsX persistent) (getSizeInCellsY persistent)
    (getResolution persistent).

(** What the node asks of the constructor and of [updateOrigin] for a grid
    centred on [gridmap_origin]: the cell dimensions and the resolution of
    the persistent map, and the grid origin position minus half the size in
    metres of the new grid, in x and in y. *)
Definition asks_for_centred_grid
    (n : Node) (gridmap_origin : Pose) (calls : list Call) : Prop :=
  let persistent := updater_costmap (occupancy_grid_map_updater_ptr_ n) in
  constructed_with calls =
    [(getSizeInCellsX persistent, getSizeInCellsY persistent,
      getResolution persistent)] /\
  origin_set_to calls =
    [(PrimFloat.sub (x (position gridmap_origin))
        (PrimFloat.div (getSizeInMetersX (fresh_grid n)) 2%float),
      PrimFloat.sub (y (position gridmap_origin))
        (PrimFloat.div (getSizeInMetersY (fresh_grid n)) 2%float))].

(** [g] is as large and as fine as the persistent map, every cell without
    information, its lower-left corner half its size in metres below the
    grid origin pose in each axis. *)
Definition centred_on
    (n : Node) (gridmap_origin : Pose) (g : Costmap2D) : Prop :=
  let persistent := updater_costmap (occupancy_grid_map_updater_ptr_ n) in
  getSizeInCellsX g = getSizeInCellsX persistent /\
  getSizeInCellsY g = getSizeInCellsY persistent /\
  getResolution g = getResolution persistent /\
  getCharMap g =
    repeat NO_INFORMATION
      (Z.to_nat
         (mul_u32 (getSizeInCellsX persistent) (getSizeInCellsY persistent))) /\
  getOriginX g =
    PrimFloat.sub (x (position gridmap_origin))
      (PrimFloat.div (getSizeInMetersX (fresh_grid n)) 2%float) /\
  getOriginY g =
    PrimFloat.sub (y (position gridmap_origin))
      (PrimFloat.div (getSizeInMetersY (fresh_grid n)) 2%float).

(** The persistent maps that come from [u0] by calls of [update], each on a
    grid the raycaster has filled. *)
Inductive fused_from (u0 : Updater) : Updater -> Prop :=
| fused_from_start : fused_from u0 u0
| fused_from_update u g raw_pc obstacle_pc robot_pose scan_origin :
    fused_from u0 u ->
    fused_from u0
      (update u
         (updateWithPointCloud g raw_pc obstacle_pc robot_pose scan_origin)).

(** A cycle either does not call [update] and leaves the node as it was, or
    ends with these six calls, in this order: the constructor of the
    single-frame grid, [updateOrigin], [updateWithPointCloud], [update] on
    the grid the raycaster left, [OccupancyGridMapToMsgPtr] on the map
    [update] left, [publish]; and no call on a grid comes before them. *)
Definition fuses_in_order
    (n : Node) (tf2 : Buffer) (input_obstacle_msg input_raw_msg : PointCloud2)
    : Prop :=
  let n' := fst (cycle n tf2 input_obstacle_msg input_raw_msg) in
  let calls := snd (cycle n tf2 input_obstacle_msg input_raw_msg) in
  (List.length (fused calls) <= 1)%nat /\
  ((fused calls = [] /\ n' = n) \/
   (exists before cx cy res fresh x0 y0 g
           raw_pc obstacle_pc robot_pose scan_origin msg,
      let sf :=
        updateWithPointCloud g raw_pc obstacle_pc robot_pose scan_origin in
      calls =
        before ++
        [ Call_OccupancyGridMap cx cy res fresh;
          Call_updateOrigin x0 y0 g;
          Call_updateWithPointCloud
            g raw_pc obstacle_pc robot_pose scan_origin sf;
          Call_update sf;
          Call_OccupancyGridMapToMsgPtr
            (updater_costmap (occupancy_grid_map_updater_ptr_ n'));
          Call_publish msg ] /\
      existsb is_grid_call before = false /\
      n' = set_updater (update (occupancy_grid_map_updater_ptr_ n) sf) n)).

(** The node with [filter_obstacle_pointcloud_by_raw_pointcloud_] off. *)
Definition without_raw_filter (n : Node) : Node :=
  {| map_frame_ := map_frame_ n;
     base_link_frame_ := base_link_frame_ n;
     gridmap_origin_frame_ := gridmap_origin_frame_ n;
     scan_origin_frame_ := scan_origin_frame_ n;
     use_height_filter_ := use_height_filter_ n;
     enable_single_frame_mode_ := enable_single_frame_mode_ n;
     filter_obstacle_pointcloud_by_raw_pointcloud_ := false;
     occupancy_grid_map_updater_ptr_ := occupancy_grid_map_updater_ptr_ n |}.

(** Two states of the transform buffer that a cycle of [n] on these clouds
    can tell apart by the platform pose only: the crops agree, the grid
    origin and the scan origin agree, and the robot pose is [pa] in the one
    and [pb] in the other. *)
Definition differ_only_in_robot_pose
    (n : Node) (tfa tfb : Buffer) (input_obstacle_msg input_raw_msg : PointCloud2)
    (pa pb : Pose) : Prop :=
  crop_to_band n tfa input_obstacle_msg = crop_to_band n tfb input_obstacle_msg /\
  crop_to_band n tfa input_raw_msg = crop_to_band n tfb input_raw_msg /\
  getPose_stamp (stamp (pc_header input_raw_msg)) tfa
    (gridmap_origin_frame_ n) (map_frame_ n) =
  getPose_stamp (stamp (pc_header input_raw_msg)) tfb
    (gridmap_origin_frame_ n) (map_frame_ n) /\
  getPose_stamp (stamp (pc_header input_raw_msg)) tfa
    (scan_origin_frame_ n) (map_frame_ n) =
  getPose_stamp (stamp (pc_header input_raw_msg)) tfb
    (scan_origin_frame_ n) (map_frame_ n) /\
  getPose_header (pc_header input_raw_msg) tfa (map_frame_ n) = inl pa /\
  getPose_header (pc_header input_raw_msg) tfb (map_frame_ n) = inl pb.

(** The cell data of the messages of a cycle. *)
Definition cell_data (calls : list Call) : list (list Z) :=
  map data (published calls).

(** Modelled from the spec: the Raycaster, which [updateWithPointCloud]
    stands for and which is missing here.  It is "given a grid, a scan
    origin, and a set of observations" (4.2), and the platform pose is
    "carried through to output metadata, not consumed by the algorithm
    itself" (6): the grid it leaves is the same for the robot poses [pa]
    and [pb]. *)
Definition raycaster_ignores (pa pb : Pose) : Prop :=
  forall g raw_pc obstacle_pc scan_origin,
    updateWithPointCloud g raw_pc obstacle_pc pa scan_origin =
    updateWithPointCloud g raw_pc obstacle_pc pb scan_origin.

(** A message with the z of its origin replaced. *)
Definition with_origin_z (z0 : double) (msg : OccupancyGrid) : OccupancyGrid :=
  {| header := header msg;
     info :=
       {| map_load_time := map_load_time (info msg);
          resolution := resolution (info msg);
          width := width (info msg);
          height := height (info msg);
          origin :=
            {| position :=
                 {| x := x (position (origin (info msg)));
                    y := y (position (origin (info msg)));
                    z := z0 |};
               orientation := orientation (origin (info msg)) |} |};
     data := data msg |}.

(** ** The paths of a callback

    What one callback does, path by path: where it ends, the node it leaves
    and the calls it makes. *)

(** the pose lookups made *)
Fixpoint lookups (calls : list Call) : list (Pose + string) :=
  match calls with
  | [] => []
  | Call_getPose result :: rest => result :: lookups rest
  | _ :: rest => lookups rest
  end.

Definition is_raycast (c : Call) : bool :=
  match c with
  | Call_updateWithPointCloud _ _ _ _ _ _ => true
  | _ => false
  end.

(** the calls of a height filter that gives [fo] and [fr] *)
Definition crop_calls
    (n : Node) (input_obstacle_msg input_raw_msg fo fr : PointCloud2)
    : list Call :=
  if use_height_filter_ n
  then [ Call_cropPointcloudByHeight input_obstacle_msg (Some fo);
         Call_cropPointcloudByHeight input_raw_msg (Some fr) ]
  else [].

(** the call that filters the obstacle cloud [fo] by the raw cloud [fr] *)
Definition extract_calls (n : Node) (fo fr : PointCloud2) : list Call :=
  if filter_obstacle_pointcloud_by_raw_pointcloud_ n
  then [Call_extractCommonPointCloud fo fr (extractCommonPointCloud fo fr)]
  else [].

(** the obstacle cloud that goes to the raycaster *)
Definition obstacle_for_raycaster (n : Node) (fo fr : PointCloud2)
    : PointCloud2 :=
  if filter_obstacle_pointcloud_by_raw_pointcloud_ n
  then match extractCommonPointCloud fo fr with
       | Some filtered_obstacle_pc_common => filtered_obstacle_pc_common
       | None => fo
       end
  else fo.

(** the new grid of a cycle after [updateOrigin] *)
Definition centred_grid (n : Node) (gridmap_origin : Pose) : Costmap2D :=
  updateOrigin (fresh_grid n)
    (PrimFloat.sub (x (position gridmap_origin))
       (PrimFloat.div (getSizeInMetersX (fresh_grid n)) 2%float))
    (PrimFloat.sub (y (position gridmap_origin))
       (PrimFloat.div (getSizeInMetersY (fresh_grid n)) 2%float)).

(** the single-frame grid of a cycle, filled *)
Definition single_frame_of
    (n : Node) (fo fr : PointCloud2) (robot_pose gridmap_origin scan_origin : Pose)
    : Costmap2D :=
  updateWithPointCloud (centred_grid n gridmap_origin)
    fr (obstacle_for_raycaster n fo fr) robot_pose scan_origin.

(** the three calls that make it *)
Definition build_calls
    (n : Node) (fo fr : PointCloud2) (robot_pose gridmap_origin scan_origin : Pose)
    : list Call :=
  let persistent := updater_costmap (occupancy_grid_map_updater_ptr_ n) in
  [ Call_OccupancyGridMap
      (getSizeInCellsX persistent) (getSizeInCellsY persistent)
      (getResolution persistent) (fresh_grid n);
    Call_updateOrigin
      (PrimFloat.sub (x (position gridmap_origin))
         (PrimFloat.div (getSizeInMetersX (fresh_grid n)) 2%float))
      (PrimFloat.sub (y (position gridmap_origin))
         (PrimFloat.div (getSizeInMetersY (fresh_grid n)) 2%float))
      (centred_grid n gridmap_origin);
    Call_updateWithPointCloud
      (centred_grid n gridmap_origin)
      fr (obstacle_for_raycaster n fo fr) robot_pose scan_origin
      (single_frame_of n fo fr robot_pose gridmap_origin scan_origin) ].

(** The seven paths.  The first five end with [return;]. *)
Inductive callback_path
    (n : Node) (tf2 : Buffer) (input_obstacle_msg input_raw_msg : PointCloud2)
    : Flow unit -> Node -> list Call -> Prop :=
| path_obstacle_crop_fails :
    use_height_filter_ n = true ->
    crop_to_band n tf2 input_obstacle_msg = None ->
    callback_path n tf2 input_obstacle_msg input_raw_msg Return n
      [Call_cropPointcloudByHeight input_obstacle_msg None]
| path_raw_crop_fails fo :
    use_height_filter_ n = true ->
    crop_to_band n tf2 input_obstacle_msg = Some fo ->
    crop_to_band n tf2 input_raw_msg = None ->
    callback_path n tf2 input_obstacle_msg input_raw_msg Return n
      [ Call_cropPointcloudByHeight input_obstacle_msg (Some fo);
        Call_cropPointcloudByHeight input_raw_msg None ]
| path_robot_pose_fails fo fr ex :
    height_filtered n tf2 input_obstacle_msg input_raw_msg fo fr ->
    getPose_header (pc_header input_raw_msg) tf2 (map_frame_ n) = inr ex ->
    callback_path n tf2 input_obstacle_msg input_raw_msg Return n
      (crop_calls n input_obstacle_msg input_raw_msg fo fr
       ++ extract_calls n fo fr
       ++ [Call_getPose (inr ex); Call_RCLCPP_WARN ex])
| path_gridmap_origin_fails fo fr robot_pose ex :
    height_filtered n tf2 input_obstacle_msg input_raw_msg fo fr ->
    getPose_header (pc_header input_raw_msg) tf2 (map_frame_ n) =
      inl robot_pose ->
    getPose_stamp (stamp (pc_header input_raw_msg)) tf2
      (gridmap_origin_frame_ n) (map_frame_ n) = inr ex ->
    callback_path n tf2 input_obstacle_msg input_raw_msg Return n
      (crop_calls n input_obstacle_msg input_raw_msg fo fr
       ++ extract_calls n fo fr
       ++ [ Call_getPose (inl robot_pose); Call_getPose (inr ex);
            Call_RCLCPP_WARN ex ])
| path_scan_origin_fails fo fr robot_pose gridmap_origin ex :
    height_filtered n tf2 input_obstacle_msg input_raw_msg fo fr ->
    getPose_header (pc_header input_raw_msg) tf2 (map_frame_ n) =
      inl robot_pose ->
    getPose_stamp (stamp (pc_header input_raw_msg)) tf2
      (gridmap_origin_frame_ n) (map_frame_ n) = inl gridmap_origin ->
    getPose_stamp (stamp (pc_header input_raw_msg)) tf2
      (scan_origin_frame_ n) (map_frame_ n) = inr ex ->
    callback_path n tf2 input_obstacle_msg input_raw_msg Return n
      (crop_calls n input_obstacle_msg input_raw_msg fo fr
       ++ extract_calls n fo fr
       ++ [ Call_getPose (inl robot_pose); Call_getPose (inl gridmap_origin);
            Call_getPose (inr ex); Call_RCLCPP_WARN ex ])
| path_single_frame fo fr robot_pose gridmap_origin scan_origin :
    height_filtered n tf2 input_obstacle_msg input_raw_msg fo fr ->
    poses_resolve n tf2 input_raw_msg robot_pose gridmap_origin scan_origin ->
    enable_single_frame_mode_ n = true ->
    let sf := single_frame_of n fo fr robot_pose gridmap_origin scan_origin in
    callback_path n tf2 input_obstacle_msg input_raw_msg (Next tt) n
      (crop_calls n input_obstacle_msg input_raw_msg fo fr
       ++ extract_calls n fo fr
       ++ [ Call_getPose (inl robot_pose); Call_getPose (inl gridmap_origin);
            Call_getPose (inl scan_origin) ]
       ++ build_calls n fo fr robot_pose gridmap_origin scan_origin
       ++ [ Call_OccupancyGridMapToMsgPtr sf;
            Call_publish (output_of n input_raw_msg (robot_pose, sf)) ])
| path_fused fo fr robot_pose gridmap_origin scan_origin :
    height_filtered n tf2 input_obstacle_msg input_raw_msg fo fr ->
    poses_resolve n tf2 input_raw_msg robot_pose gridmap_origin scan_origin ->
    enable_single_frame_mode_ n = false ->
    let sf := single_frame_of n fo fr robot_pose gridmap_origin scan_origin in
    let updated := update (occupancy_grid_map_updater_ptr_ n) sf in
    callback_path n tf2 input_obstacle_msg input_raw_msg (Next tt)
      (set_updater updated n)
      (crop_calls n input_obstacle_msg input_raw_msg fo fr
       ++ extract_calls n fo fr
       ++ [ Call_getPose (inl robot_pose); Call_getPose (inl gridmap_origin);
            Call_getPose (inl scan_origin) ]
       ++ build_calls n fo fr robot_pose gridmap_origin scan_origin
       ++ [ Call_update sf;
            Call_OccupancyGridMapToMsgPtr (updater_costmap updated);
            Call_publish
              (output_of n input_raw_msg (robot_pose, updater_costmap updated)) ]).

(** Two states of the transform buffer that a cycle of [n] on these clouds
    can tell apart by the grid origin pose only, [ga] in the one and [gb]
    in the other. *)
Definition differ_only_in_gridmap_origin
    (n : Node) (tfa tfb : Buffer) (input_obstacle_msg input_raw_msg : PointCloud2)
    (ga gb : Pose) : Prop :=
  crop_to_band n tfa input_obstacle_msg = crop_to_band n tfb input_obstacle_msg /\
  crop_to_band n tfa input_raw_msg = crop_to_band n tfb input_raw_msg /\
  getPose_header (pc_header input_raw_msg) tfa (map_frame_ n) =
  getPose_header (pc_header input_raw_msg) tfb (map_frame_ n) /\
  getPose_stamp (stamp (pc_header input_raw_msg)) tfa
    (scan_origin_frame_ n) (map_frame_ n) =
  getPose_stamp (stamp (pc_header input_raw_msg)) tfb
    (scan_origin_frame_ n) (map_frame_ n) /\
  getPose_stamp (stamp (pc_header input_raw_msg)) tfa
    (gridmap_origin_frame_ n) (map_frame_ n) = inl ga /\
  getPose_stamp (stamp (pc_header input_raw_msg)) tfb
    (gridmap_origin_frame_ n) (map_frame_ n) = inl gb.

(** The calls of the cycles of a run, each started from the same node. *)
Definition calls_from (n : Node) (inputs : list Inputs) : list Call :=
  flat_map
    (fun i => snd (cycle n (in_tf2 i) (in_obstacle i) (in_raw i))) inputs.

End Node.

(** ** The debug tool

    The stop watch and the debug publisher the constructor makes ("initialize
    debug tool") and the callback uses at its entry and at its end.
    [StopWatch] is declared in [tier4_autoware_utils]; it is a second
    interface, and the callback with it is the callback above between the
    calls of the stop watch. *)
Class DebugTool := {
  StopWatch : Type;
  (** what the clock shows while a call of the stop watch runs *)
  Clock : Type;
  (** [std::make_unique<StopWatch<std::chrono::milliseconds>>()] *)
  new_StopWatch : StopWatch;
  (** [StopWatch::tic (name)] *)
  tic : StopWatch -> string -> Clock -> StopWatch;
  (** [StopWatch::toc (name, reset)]: the milliseconds it returns and the
      stop watch it leaves *)
  toc : StopWatch -> string -> bool -> Clock -> double * StopWatch
}.

Section Timing.

Context {host : Collaborators} {tool : DebugTool}.

(** [DebugPublisher (this, ns)] *)
Record DebugPublisher := mkDebugPublisher { debug_namespace : string }.

Record TimedNode := mkTimedNode
  { node_ : Node;
    stop_watch_ptr_ : option StopWatch;
    debug_publisher_ptr_ : option DebugPublisher }.

(** The constructor with its last block: the stop watch is started for
    "cyclic_time" and for "processing_time". *)
Definition PointcloudBasedOccupancyGridMapNode_with_debug_tool
    (node_options : NodeOptions) (clock_cyclic clock_processing : Clock)
    : option TimedNode :=
  match PointcloudBasedOccupancyGridMapNode node_options with
  | None => None
  | Some n =>
      Some
        {| node_ := n;
           stop_watch_ptr_ :=
             Some
               (tic (tic new_StopWatch "cyclic_time" clock_cyclic)
                    "processing_time" clock_processing);
           debug_publisher_ptr_ :=
             Some
               {| debug_namespace := "pointcloud_based_occupancy_grid_map" |} |}
  end.

(** The calls of the callback with those on the debug tool. *)
Inductive TimedCall :=
| Timed_toc (name : string) (reset : bool) (elapsed : double)
| Timed_debug_publish (name : string) (value : double)
| Timed_call (c : Call).

(** the values published by the debug publisher, with their names *)
Fixpoint debug_published (calls : list TimedCall) : list (string * double) :=
  match calls with
  | [] => []
  | Timed_debug_publish name value :: rest =>
      (name, value) :: debug_published rest
  | _ :: rest => debug_published rest
  end.

(** the stop watch calls *)
Fixpoint stop_watch_calls (calls : list TimedCall) : list (string * bool) :=
  match calls with
  | [] => []
  | Timed_toc name reset _ :: rest => (name, reset) :: stop_watch_calls rest
  | _ :: rest => stop_watch_calls rest
  end.

(** the calls of the callback proper *)
Fixpoint node_calls (calls : list TimedCall) : list Call :=
  match calls with
  | [] => []
  | Timed_call c :: rest => c :: node_calls rest
  | _ :: rest => node_calls rest
  end.

(** [onPointcloudWithObstacleAndRaw] from its first line to its last.  The
    three clocks are what the three calls of [toc] see. *)
Definition onPointcloudWithObstacleAndRaw_with_debug_tool
    (clock_enter clock_cyclic clock_processing : Clock)
    (tf2 : Buffer) (input_obstacle_msg input_raw_msg : PointCloud2)
    (this : TimedNode) : TimedNode * list TimedCall :=
  (* if (stop_watch_ptr_) { stop_watch_ptr_->toc("processing_time", true); } *)
  let entered :=
    match stop_watch_ptr_ this with
    | Some sw =>
        let r := toc sw "processing_time" true clock_enter in
        (Some (snd r), [Timed_toc "processing_time" true (fst r)])
    | None => (None, [])
    end in
  match
    onPointcloudWithObstacleAndRaw
      tf2 input_obstacle_msg input_raw_msg (node_ this)
  with
  | (Return, n', calls) =>
      ({| node_ := n';
          stop_watch_ptr_ := fst entered;
          debug_publisher_ptr_ := debug_publisher_ptr_ this |},
       snd entered ++ map Timed_call calls)
  | (Next _, n', calls) =>
      (* if (debug_publisher_ptr_ && stop_watch_ptr_) *)
      match debug_publisher_ptr_ this, fst entered with
      | Some _, Some sw =>
          let cyclic := toc sw "cyclic_time" true clock_cyclic in
          let processing :=
            toc (snd cyclic) "processing_time" true clock_processing in
          ({| node_ := n';
              stop_watch_ptr_ := Some (snd processing);
              debug_publisher_ptr_ := debug_publisher_ptr_ this |},
           snd entered ++ map Timed_call calls
           ++ [ Timed_toc "cyclic_time" true (fst cyclic);
                Timed_toc "processing_time" true (fst processing);
                Timed_debug_publish "debug/cyclic_time_ms" (fst cyclic);
                Timed_debug_publish "debug/processing_time_ms"
                  (fst processing) ])
      | _, _ =>
          ({| node_ := n';
              stop_watch_ptr_ := fst entered;
              debug_publisher_ptr_ := debug_publisher_ptr_ this |},
           snd entered ++ map Timed_call calls)
      end
  end.

(** One callback of a run: the three clocks and the inputs. *)
Record TimedInputs := mkTimedInputs
  { clock_enter : Clock;
    clock_cyclic : Clock;
    clock_processing : Clock;
    the_inputs : Inputs }.

(** The node with its debug tool over a sequence of callbacks. *)
Fixpoint spin_with_debug_tool (this : TimedNode) (run : list TimedInputs)
    : TimedNode * list TimedCall :=
  match run with
  | [] => (this, [])
  | i :: rest =>
      let first :=
        onPointcloudWithObstacleAndRaw_with_debug_tool
          (clock_enter i) (clock_cyclic i) (clock_processing i)
          (in_tf2 (the_inputs i)) (in_obstacle (the_inputs i))
          (in_raw (the_inputs i)) this in
      let others := spin_with_debug_tool (fst first) rest in
      (fst others, snd first ++ snd others)
  end.

(** Both parts of the debug tool are there. *)
Definition has_debug_tool (this : TimedNode) : Prop :=
  stop_watch_ptr_ this <> None /\ debug_publisher_ptr_ this <> None.

End Timing.

(** ** A small host

    One implementation of [Collaborators], on which the node runs on
    concrete inputs.  Clouds are lists of points; the transform buffer gives
    the pose in the map frame of the frames it knows; the grid engine is the
    Grid of the spec; the raycaster marks the cell under every return, a
    point of the map frame, and does not look at the robot pose; the
    updater overwrites the cells the new frame has seen. *)
Module Sample.

Record Cloud := mkCloud { cloud_header : Header; cloud_points : list Point }.

Definition Tf : Type := string -> option Pose.

Definition lookup (tf : Tf) (frame : string) : Pose + string :=
  match tf frame with
  | Some p => inl p
  | None => inr ("no transform from " ++ frame)%string
  end.

Definition in_band (lo hi : double) (p : Point) : bool :=
  PrimFloat.leb lo (z p) && PrimFloat.leb (z p) hi.

Definition crop
    (input : Cloud) (tf : Tf) (target_frame : string) (lo hi : double)
    : option Cloud :=
  match tf (frame_id (cloud_header input)) with
  | None => None
  | Some _ =>
      Some {| cloud_header := cloud_header input;
              cloud_points := filter (in_band lo hi) (cloud_points input) |}
  end.

Definition same_point (p q : Point) : bool :=
  PrimFloat.eqb (x p) (x q) && PrimFloat.eqb (y p) (y q)
  && PrimFloat.eqb (z p) (z q).

Definition common (obstacle_pc raw_pc : Cloud) : option Cloud :=
  match cloud_points raw_pc with
  | [] => None
  | _ :: _ =>
      Some {| cloud_header := cloud_header obstacle_pc;
              cloud_points :=
                filter (fun p => existsb (same_point p) (cloud_points raw_pc))
                       (cloud_points obstacle_pc) |}
  end.

Definition of_cells (n : Z) : double := PrimFloat.of_uint63 (Uint63.of_Z n).

Definition size_in_meters_x (g : Costmap2D) : double :=
  PrimFloat.mul (of_cells (size_x_ g)) (resolution_ g).

Definition size_in_meters_y (g : Costmap2D) : double :=
  PrimFloat.mul (of_cells (size_y_ g)) (resolution_ g).

Definition floor_Z (d : double) : Z :=
  match Prim2SF d with
  | S754_finite s m e => Z.shiftl (cond_Zopp s (Zpos m)) e
  | _ => 0
  end.

Definition cell_of (g : Costmap2D) (wx wy : double) : option nat :=
  let mx := floor_Z (PrimFloat.div (PrimFloat.sub wx (origin_x_ g)) (resolution_ g)) in
  let my := floor_Z (PrimFloat.div (PrimFloat.sub wy (origin_y_ g)) (resolution_ g)) in
  if (0 <=? mx) && (mx <? size_x_ g) && (0 <=? my) && (my <? size_y_ g)
  then Some (Z.to_nat (getIndex g mx my))
  else None.

Fixpoint set_cell (i : nat) (v : Z) (cells : list Z) : list Z :=
  match cells, i with
  | [], _ => []
  | _ :: rest, O => v :: rest
  | c :: rest, S j => c :: set_cell j v rest
  end.

Definition FREE_SPACE : Z := 0.
Definition LETHAL_OBSTACLE : Z := 255.
Definition no_information : Z := 128.

Definition mark (v : Z) (g : Costmap2D) (p : Point) : Costmap2D :=
  match cell_of g (x p) (y p) with
  | None => g
  | Some i =>
      {| size_x_ := size_x_ g; size_y_ := size_y_ g;
         resolution_ := resolution_ g;
         origin_x_ := origin_x_ g; origin_y_ := origin_y_ g;
         costmap_ := set_cell i v (costmap_ g) |}
  end.

Definition raycast
    (g : Costmap2D) (raw_pc obstacle_pc : Cloud) (robot_pose scan_origin : Pose)
    : Costmap2D :=
  fold_left (mark LETHAL_OBSTACLE) (cloud_points obstacle_pc)
    (fold_left (mark FREE_SPACE) (cloud_points raw_pc) g).

Fixpoint overwrite (old new : list Z) : list Z :=
  match old, new with
  | o :: old', n :: new' =>
      (if n =? no_information then o else n) :: overwrite old' new'
  | _, _ => old
  end.

Definition fuse (persistent single_frame : Costmap2D) : Costmap2D :=
  {| size_x_ := size_x_ persistent; size_y_ := size_y_ persistent;
     resolution_ := resolution_ persistent;
     origin_x_ := origin_x_ single_frame; origin_y_ := origin_y_ single_frame;
     costmap_ := overwrite (costmap_ persistent) (costmap_ single_frame) |}.

Definition new_grid (cells_size_x cells_size_y : Z) (resolution : double)
    : Costmap2D :=
  {| size_x_ := cells_size_x; size_y_ := cells_size_y;
     resolution_ := resolution;
     origin_x_ := 0%float; origin_y_ := 0%float;
     costmap_ :=
       repeat no_information (Z.to_nat (mul_u32 cells_size_x cells_size_y)) |}.

Definition set_origin (g : Costmap2D) (new_origin_x new_origin_y : double)
    : Costmap2D :=
  {| size_x_ := size_x_ g; size_y_ := size_y_ g;
     resolution_ := resolution_ g;
     origin_x_ := new_origin_x; origin_y_ := new_origin_y;
     costmap_ := costmap_ g |}.

Definition new_updater (cells_size_x cells_size_y resolution : double)
    : Costmap2D :=
  {| size_x_ := floor_Z cells_size_x; size_y_ := floor_Z cells_size_y;
     resolution_ := resolution;
     origin_x_ := 0%float; origin_y_ := 0%float;
     costmap_ :=
       repeat no_information
         (Z.to_nat (mul_u32 (floor_Z cells_size_x) (floor_Z cells_size_y))) |}.

Definition table (v : Z) : Z := Z.max 1 (Z.min 99 (v * 100 / 255)).

#[global] Instance host : Collaborators :=
  {| PointCloud2 := Cloud;
     pc_header := cloud_header;
     PointCloud2_empty :=
       {| cloud_header :=
            {| stamp := {| sec := 0; nanosec := 0 |}; frame_id := "" |};
          cloud_points := [] |};
     Buffer := Tf;
     cropPointcloudByHeight := crop;
     extractCommonPointCloud := common;
     getPose_header := fun h tf target_frame => lookup tf (frame_id h);
     getPose_stamp := fun t tf source_frame target_frame => lookup tf source_frame;
     getSizeInMetersX := size_in_meters_x;
     getSizeInMetersY := size_in_meters_y;
     OccupancyGridMap := new_grid;
     updateOrigin := set_origin;
     updateWithPointCloud := raycast;
     Updater := Costmap2D;
     updater_costmap := fun u => u;
     OccupancyGridMapBBFUpdater := new_updater;
     update := fuse;
     cost_translation_table := table;
     NO_INFORMATION := no_information |}.

Definition at_xyz (px py pz : double) : Pose :=
  {| position := {| x := px; y := py; z := pz |};
     orientation :=
       {| qx := 0%float; qy := 0%float; qz := 0%float; qw := 1%float |} |}.

(** A 4 x 4 map of half-metre cells; the grid origin and the scan origin
    have frames of their own. *)
Definition options (single_frame filter_by_raw : bool) : NodeOptions :=
  fun name =>
    if String.eqb name "gridmap_origin_frame" then Some (PString "grid_origin")
    else if String.eqb name "scan_origin_frame" then Some (PString "lidar")
    else if String.eqb name "enable_single_frame_mode"
      then Some (PBool single_frame)
    else if String.eqb name "filter_obstacle_pointcloud_by_raw_pointcloud"
      then Some (PBool filter_by_raw)
    else if String.eqb name "map_length" then Some (PDouble 2%float)
    else None.

Definition node (single_frame filter_by_raw : bool) : Node :=
  match PointcloudBasedOccupancyGridMapNode (options single_frame filter_by_raw) with
  | Some n => n
  | None =>
      mkNode "" "" "" "" false false false (new_updater 0%float 0%float 0%float)
  end.

Definition tf_with (robot_pose : Pose) : Tf :=
  fun frame =>
    if String.eqb frame "base_link" then Some robot_pose
    else if String.eqb frame "grid_origin" then Some (at_xyz 2%float 1.5%float 0%float)
    else if String.eqb frame "lidar" then Some (at_xyz 1%float 1%float 1.5%float)
    else None.

Definition tf : Tf := tf_with (at_xyz 1%float 1%float 0.25%float).

(** the robot half a metre back along x *)
Definition tf_moved : Tf := tf_with (at_xyz 0.5%float 1%float 0.25%float).

(** a buffer that does not know the grid origin frame *)
Definition tf_no_grid_origin : Tf :=
  fun frame => if String.eqb frame "grid_origin" then None else tf frame.

Definition base_link_header : Header :=
  {| stamp := {| sec := 7; nanosec := 0 |}; frame_id := "base_link" |}.

Definition obstacle_cloud : Cloud :=
  {| cloud_header := base_link_header;
     cloud_points := [ {| x := 1.5%float; y := 1.25%float; z := 0.5%float |} ] |}.

Definition raw_cloud : Cloud :=
  {| cloud_header := base_link_header;
     cloud_points :=
       [ {| x := 1.5%float; y := 1.25%float; z := 0.5%float |};
         {| x := 2.5%float; y := 1.25%float; z := 0.125%float |};
         {| x := 0%float; y := 0%float; z := 5%float |} ] |}.

(** a cloud in a frame the buffer does not know: cropping it fails *)
Definition stray_cloud : Cloud :=
  {| cloud_header :=
       {| stamp := {| sec := 7; nanosec := 0 |}; frame_id := "camera" |};
     cloud_points := cloud_points raw_cloud |}.

(** a raw cloud without returns: the common points cannot be extracted *)
Definition empty_raw_cloud : Cloud :=
  {| cloud_header := base_link_header; cloud_points := [] |}.

(** A map of 2 x 2 cells of a tenth of a metre: 0x1.999999999999ap-4 is
    the [double] 0.1, which no [float] holds, and the map is twice as
    long. *)
Definition fine_options : NodeOptions :=
  fun name =>
    if String.eqb name "map_length"
      then Some (PDouble 0x1.999999999999ap-3%float)
    else if String.eqb name "map_resolution"
      then Some (PDouble 0x1.999999999999ap-4%float)
    else options false false name.

Definition fine_node : Node :=
  match PointcloudBasedOccupancyGridMapNode fine_options with
  | Some n => n
  | None => node false false
  end.

(** one cycle of the fusing node *)
Definition fusing_cycle : Node * list Call :=
  cycle (node false false) tf obstacle_cloud raw_cloud.

(** the first message in a record of calls *)
Definition first_message (calls : list Call) : OccupancyGrid :=
  hd (OccupancyGridMapToMsgPtr "" (mkTime 0 0) 0%float
        (new_updater 0%float 0%float 0%float))
     (published calls).

(** A stop watch: the clock is in milliseconds, the watch keeps the time
    each name was last started. *)
Definition Watch : Type := list (string * double).

Fixpoint started (w : Watch) (name : string) : double :=
  match w with
  | [] => 0%float
  | (k, t) :: rest => if String.eqb k name then t else started rest name
  end.

Definition watch_tic (w : Watch) (name : string) (now : double) : Watch :=
  (name, now) :: w.

Definition watch_toc (w : Watch) (name : string) (reset : bool) (now : double)
    : double * Watch :=
  (PrimFloat.sub now (started w name),
   if reset then watch_tic w name now else w).

#[global] Instance tool : DebugTool :=
  {| StopWatch := Watch;
     Clock := double;
     new_StopWatch := [];
     tic := watch_tic;
     toc := watch_toc |}.

(** the node as its constructor leaves it at time 0 *)
Definition timed_node (single_frame filter_by_raw : bool) : TimedNode :=
  {| node_ := node single_frame filter_by_raw;
     stop_watch_ptr_ :=
       Some (watch_tic (watch_tic [] "cyclic_time" 0%float)
                       "processing_time" 0%float);
     debug_publisher_ptr_ :=
       Some {| debug_namespace := "pointcloud_based_occupancy_grid_map" |} |}.

(** the grid origin three metres higher and turned by a half turn *)
Definition tf_origin_raised : Tf :=
  fun frame =>
    if String.eqb frame "grid_origin"
    then Some {| position := {| x := 2%float; y := 1.5%float; z := 3%float |};
                 orientation :=
                   {| qx := 0%float; qy := 0%float; qz := 1%float;
                      qw := 0%float |} |}
    else tf frame.

(** the single-frame node on the persistent map a fusing cycle has left *)
Definition node_with_history : Node :=
  set_updater (occupancy_grid_map_updater_ptr_ (fst fusing_cycle))
    (node true false).

(** two callbacks, the second with an obstacle cloud that cannot be
    cropped *)
Definition run : list Inputs :=
  [ mkInputs tf obstacle_cloud raw_cloud;
    mkInputs tf stray_cloud raw_cloud ].

Definition timed_run : list TimedInputs :=
  [ mkTimedInputs 100%float 130%float 130%float
      (mkInputs tf obstacle_cloud raw_cloud);
    mkTimedInputs 200%float 210%float 210%float
      (mkInputs tf stray_cloud raw_cloud) ].

End Sample.

(** * Properties of the node *)

Section Facts.

Context {host : Collaborators}.

(** Unfolds one callback down to the calls of the collaborators. *)
Ltac unfold_callback :=
  unfold cycle, onPointcloudWithObstacleAndRaw, apply_height_filter,
    filter_obstacle_by_raw, get_poses, create_single_frame,
    do_cropPointcloudByHeight, do_extractCommonPointCloud, do_getPose,
    RCLCPP_WARN_STREAM, new_OccupancyGridMap, do_updateOrigin,
    do_updateWithPointCloud, do_update, do_OccupancyGridMapToMsgPtr, publish,
    bind, member, call, ret, return_.

(** Splits on the next result the callback branches on. *)
Ltac next_branch :=
  match goal with
  | |- context [match cropPointcloudByHeight ?a ?b ?c ?d ?e with _ => _ end] =>
      destruct (cropPointcloudByHeight a b c d e) eqn:?
  | |- context [match extractCommonPointCloud ?a ?b with _ => _ end] =>
      destruct (extractCommonPointCloud a b) eqn:?
  | |- context [match getPose_header ?a ?b ?c with _ => _ end] =>
      destruct (getPose_header a b c) eqn:?
  | |- context [match getPose_stamp ?a ?b ?c ?d with _ => _ end] =>
      destruct (getPose_stamp a b c d) eqn:?
  end; cbn.

(** Runs the callback of a node given field by field, through every path. *)
Ltac run_callback := unfold_callback; cbn; repeat next_branch.

(** ** Single-frame-only mode *)

(** C1.  In every cycle of a node in single-frame-only mode the node, and so
    the cells of its persistent map, are after the cycle what they were
    before it; [update] is not called; and what is published is the
    quantization of the single-frame grid [updateWithPointCloud] filled in
    that cycle, at most one message. *)
Theorem single_frame_mode_bypasses_fusion
    (n : Node) (tf2 : Buffer) (input_obstacle_msg input_raw_msg : PointCloud2) :
  enable_single_frame_mode_ n = true ->
  let n' := fst (cycle n tf2 input_obstacle_msg input_raw_msg) in
  let calls := snd (cycle n tf2 input_obstacle_msg input_raw_msg) in
  n' = n /\
  getCharMap (updater_costmap (occupancy_grid_map_updater_ptr_ n')) =
    getCharMap (updater_costmap (occupancy_grid_map_updater_ptr_ n)) /\
  fused calls = [] /\
  published calls = map (output_of n input_raw_msg) (filled calls) /\
  quantized calls = map snd (filled calls) /\
  (List.length (published calls) <= 1)%nat.
Proof.
  destruct n as [mf bl go so hf sfm fbr u]; cbn [enable_single_frame_mode_].
  intros ->.
  destruct hf, fbr; run_callback; unfold output_of; cbn; auto 10.
Qed.

(** ** Transform failures *)

(** C2.  When one of the three pose lookups throws, the cycle leaves the
    node as it was, makes no call on a grid, on the updater or on the
    publisher (no single-frame grid is created or filled, nothing is fused,
    quantized or published). *)
Theorem transform_failure_skips_cycle
    (n : Node) (tf2 : Buffer) (input_obstacle_msg input_raw_msg : PointCloud2) :
  pose_lookup_fails n tf2 input_raw_msg ->
  let n' := fst (cycle n tf2 input_obstacle_msg input_raw_msg) in
  let calls := snd (cycle n tf2 input_obstacle_msg input_raw_msg) in
  n' = n /\
  existsb is_grid_call calls = false /\
  created calls = [] /\ filled calls = [] /\ fused calls = [] /\
  published calls = [].
Proof.
  destruct n as [mf bl go so hf sfm fbr u].
  unfold pose_lookup_fails; cbn [map_frame_ gridmap_origin_frame_ scan_origin_frame_].
  intros H.
  destruct hf, fbr, sfm; run_callback; cbn; auto 10;
    exfalso; destruct H as [[ex H] | [[ex H] | [ex H]]]; congruence.
Qed.

(** ** The output message *)

(** The loop of [OccupancyGridMapToMsgPtr] over a buffer of the length it
    runs to translates the buffer cell by cell. *)
Lemma translate_all_cells (f : Z -> Z) (cells : list Z) (d : Z) :
  map (fun i => f (nth i cells d)) (seq 0 (List.length cells)) = map f cells.
Proof.
  induction cells as [| c cells IH]; [reflexivity |].
  cbn [List.length seq map nth].
  rewrite <- seq_shift, map_map. cbn [nth]. now rewrite IH.
Qed.

Lemma cell_index_in_range (w h mx my : Z) :
  0 <= mx < w -> 0 <= my < h -> 0 <= my * w + mx < w * h.
Proof. nia. Qed.

Lemma OccupancyGridMapToMsgPtr_snapshot
    (frame_id : string) (stamp : Time) (robot_pose_z : double) (g : Costmap2D) :
  snapshot_of (OccupancyGridMapToMsgPtr frame_id stamp robot_pose_z g) g.
Proof.
  unfold snapshot_of, OccupancyGridMapToMsgPtr, getCharMap, getSizeInCellsX,
    getSizeInCellsY;
    cbn [width height resolution info origin position x y data].
  do 3 (split; [reflexivity |]).
  split; [intros Hfloat; exact Hfloat |].
  do 2 (split; [reflexivity |]).
  split; [now rewrite length_map, length_seq |].
  intros (Hx & Hy & Hlen).
  assert (Hdata :
    map (fun i => cost_translation_table (nth i (costmap_ g) 0))
        (seq 0 (Z.to_nat (mul_u32 (size_x_ g) (size_y_ g)))) =
    map cost_translation_table (costmap_ g)).
  { rewrite <- Hlen. apply translate_all_cells. }
  rewrite Hdata. split; [reflexivity |].
  intros Hfits.
  assert (Hcells :
    List.length (costmap_ g) = Z.to_nat (size_x_ g * size_y_ g)).
  { rewrite Hlen. unfold mul_u32. rewrite Z.mod_small by nia. reflexivity. }
  split; [now rewrite length_map |].
  intros mx my Hmx Hmy. unfold getCost, getIndex.
  pose proof (cell_index_in_range _ _ _ _ Hmx Hmy) as Hi.
  assert (Hlt :
    (Z.to_nat (my * size_x_ g + mx) < List.length (costmap_ g))%nat).
  { rewrite Hcells. apply Z2Nat.inj_lt; lia. }
  rewrite nth_error_map, (nth_error_nth' _ 0 Hlt). reflexivity.
Qed.


(** ** The single-frame grid *)

(** The grid the node centres is centred, when the grid engine is the Grid
    of the spec and create does not fail on the dimensions and the
    resolution of the persistent map. *)
Lemma centred_grid_is_centred (n : Node) (gridmap_origin : Pose) :
  let persistent := updater_costmap (occupancy_grid_map_updater_ptr_ n) in
  grid_as_specified ->
  InvalidDimension
    (getSizeInCellsX persistent) (getSizeInCellsY persistent)
    (getResolution persistent) = false ->
  centred_on n gridmap_origin (centred_grid n gridmap_origin).
Proof.
  intros persistent [Hcreate Hset] Hvalid.
  pose proof
    (Hcreate (getSizeInCellsX persistent) (getSizeInCellsY persistent)
       (getResolution persistent)) as Hfresh.
  unfold create in Hfresh. rewrite Hvalid in Hfresh.
  specialize (Hfresh _ eq_refl).
  change (OccupancyGridMap _ _ _) with (fresh_grid n) in Hfresh.
  unfold centred_on, centred_grid. rewrite Hset.
  unfold setOrigin, getSizeInCellsX, getSizeInCellsY, getResolution,
    getCharMap, getOriginX, getOriginY;
    cbn [size_x_ size_y_ resolution_ costmap_ origin_x_ origin_y_].
  fold persistent. rewrite Hfresh at 1 2 3 4.
  repeat split; reflexivity.
Qed.

(** C6.  A cycle either creates no grid (and then fills and publishes
    none), or it creates exactly one: it calls the constructor with the
    cell dimensions and the resolution of the persistent map, and
    [updateOrigin] with the grid origin position minus half the size in
    metres of the new grid, in x and in y, and hands the grid
    [updateOrigin] leaves to the raycaster.  The second is the case
    whenever the height filter gives its clouds and the three poses
    resolve.  When the grid engine is the Grid of the spec and the
    dimensions and the resolution of the persistent map are positive, so
    that create does not fail, the grid handed to the raycaster has those
    dimensions and that resolution, every cell without information, and
    its lower-left corner half its size in metres below the grid origin
    position in each axis. *)
Theorem single_frame_grid_is_fresh_and_centred
    (n : Node) (tf2 : Buffer) (input_obstacle_msg input_raw_msg : PointCloud2) :
  let calls := snd (cycle n tf2 input_obstacle_msg input_raw_msg) in
  let persistent := updater_costmap (occupancy_grid_map_updater_ptr_ n) in
  ((created calls = [] /\ handed_to_raycaster calls = [] /\
    published calls = []) \/
   (exists gridmap_origin,
      getPose_stamp (stamp (pc_header input_raw_msg)) tf2
        (gridmap_origin_frame_ n) (map_frame_ n) = inl gridmap_origin /\
      asks_for_centred_grid n gridmap_origin calls /\
      created calls = [fresh_grid n] /\
      handed_to_raycaster calls = [centred_grid n gridmap_origin])) /\
  (forall fo fr robot_pose gridmap_origin scan_origin,
     height_filtered n tf2 input_obstacle_msg input_raw_msg fo fr ->
     poses_resolve n tf2 input_raw_msg robot_pose gridmap_origin scan_origin ->
     asks_for_centred_grid n gridmap_origin calls /\
     created calls = [fresh_grid n] /\
     handed_to_raycaster calls = [centred_grid n gridmap_origin]) /\
  (grid_as_specified ->
   InvalidDimension
     (getSizeInCellsX persistent) (getSizeInCellsY persistent)
     (getResolution persistent) = false ->
   forall gridmap_origin,
     centred_on n gridmap_origin (centred_grid n gridmap_origin)).
Proof.
  intros calls persistent. subst calls.
  split; [| split];
    [ | | intros Hspec Hvalid gridmap_origin;
          now apply centred_grid_is_centred ].
  all: clear persistent; destruct n as [mf bl go so hf sfm fbr u];
    unfold height_filtered, poses_resolve, crop_to_band,
      asks_for_centred_grid, centred_grid, fresh_grid;
    cbn [use_height_filter_ map_frame_ gridmap_origin_frame_
         scan_origin_frame_ base_link_frame_ occupancy_grid_map_updater_ptr_].
  - destruct hf, fbr, sfm; run_callback; cbn;
      first [ left; repeat split; reflexivity
            | right; eexists; repeat split; reflexivity ].
  - destruct hf, fbr, sfm; run_callback; cbn;
      intros fo fr rp gp sp [Ho Hr] (Hrp & Hgp & Hsp);
      first [ congruence
            | injection Hgp as <-; repeat split; reflexivity ].
Qed.

(** ** The persistent map *)

Lemma cycle_fuses_in_order
    (n : Node) (tf2 : Buffer) (input_obstacle_msg input_raw_msg : PointCloud2) :
  fuses_in_order n tf2 input_obstacle_msg input_raw_msg.
Proof.
  destruct n as [mf bl go so hf sfm fbr u]. unfold fuses_in_order.
  destruct hf, fbr, sfm; run_callback; cbn;
    (split; [lia |]);
    first
      [ left; split; reflexivity
      | right;
        match goal with
        | |- context [@eq (list Call) ?calls _] =>
            exists (firstn (List.length calls - 6) calls)
        end;
        cbn; eexists _, _, _, _, _, _, _, _, _, _, _, _;
        split; [reflexivity | split; reflexivity] ].
Qed.

Lemma cycle_keeps_fused_from
    (u0 : Updater) (n : Node) (tf2 : Buffer)
    (input_obstacle_msg input_raw_msg : PointCloud2) :
  fused_from u0 (occupancy_grid_map_updater_ptr_ n) ->
  fused_from u0
    (occupancy_grid_map_updater_ptr_
       (fst (cycle n tf2 input_obstacle_msg input_raw_msg))).
Proof.
  intros Hn.
  destruct (cycle_fuses_in_order n tf2 input_obstacle_msg input_raw_msg)
    as [_ [[_ ->] | Hfuse]]; [exact Hn |].
  destruct Hfuse
    as (b & cx & cy & res & f & x0 & y0 & g & r & o & rp & so & m & _ & _ & ->).
  cbn [set_updater occupancy_grid_map_updater_ptr_].
  now apply fused_from_update.
Qed.

Lemma spin_keeps_fused_from (u0 : Updater) (inputs : list Inputs) :
  forall n : Node,
    fused_from u0 (occupancy_grid_map_updater_ptr_ n) ->
    fused_from u0 (occupancy_grid_map_updater_ptr_ (fst (spin n inputs))).
Proof.
  induction inputs as [| i rest IH]; intros n Hn; cbn [spin]; [exact Hn |].
  pose proof (cycle_keeps_fused_from u0 n (in_tf2 i) (in_obstacle i) (in_raw i) Hn)
    as Hstep.
  destruct (cycle n (in_tf2 i) (in_obstacle i) (in_raw i)) as [n1 l1].
  specialize (IH n1 Hstep).
  destruct (spin n1 rest) as [n2 l2]. exact IH.
Qed.

Lemma constructor_reads_parameters (opts : NodeOptions) (n0 : Node) :
  PointcloudBasedOccupancyGridMapNode opts = Some n0 ->
  declare_parameter_string opts "map_frame" "map" = Some (map_frame_ n0) /\
  declare_parameter_string opts "base_link_frame" "base_link" =
    Some (base_link_frame_ n0) /\
  declare_parameter_string opts "gridmap_origin_frame" "base_link" =
    Some (gridmap_origin_frame_ n0) /\
  declare_parameter_string opts "scan_origin_frame" "base_link" =
    Some (scan_origin_frame_ n0) /\
  declare_parameter_bool opts "use_height_filter" true =
    Some (use_height_filter_ n0) /\
  declare_parameter_bool opts "enable_single_frame_mode" false =
    Some (enable_single_frame_mode_ n0) /\
  declare_parameter_bool opts
    "filter_obstacle_pointcloud_by_raw_pointcloud" false =
    Some (filter_obstacle_pointcloud_by_raw_pointcloud_ n0) /\
  exists map_length' map_resolution,
    declare_parameter_double opts "map_length" 100%float = Some map_length' /\
    declare_parameter_double opts "map_resolution" 0.5%float =
      Some map_resolution /\
    occupancy_grid_map_updater_ptr_ n0 =
      OccupancyGridMapBBFUpdater
        (PrimFloat.div map_length' map_resolution)
        (PrimFloat.div map_length' map_resolution) map_resolution.
Proof.
  unfold PointcloudBasedOccupancyGridMapNode.
  repeat
    match goal with
    | |- context [match ?d with Some _ => _ | None => _ end] =>
        destruct d eqn:?; [| discriminate]
    end.
  intros [= <-]; cbn. repeat split; eauto.
Qed.

(** C7.  The persistent map is made by the constructor, once.  After any
    number of cycles it is that map after a sequence of calls of [update],
    each on a grid the raycaster has filled: nothing else writes it.  Within
    every cycle [update] is called at most once, and when it is, the cycle
    ends with: create, set origin, fill, fuse, quantize, publish, in this
    order, with no call on a grid before them. *)
Theorem persistent_map_is_only_fused
    (opts : NodeOptions) (n0 : Node) (inputs : list Inputs) :
  PointcloudBasedOccupancyGridMapNode opts = Some n0 ->
  (exists map_length' map_resolution,
     occupancy_grid_map_updater_ptr_ n0 =
       OccupancyGridMapBBFUpdater
         (PrimFloat.div map_length' map_resolution)
         (PrimFloat.div map_length' map_resolution) map_resolution) /\
  fused_from (occupancy_grid_map_updater_ptr_ n0)
    (occupancy_grid_map_updater_ptr_ (fst (spin n0 inputs))) /\
  (forall n tf2 input_obstacle_msg input_raw_msg,
     fuses_in_order n tf2 input_obstacle_msg input_raw_msg).
Proof.
  intros Hnew. split; [| split].
  - destruct (constructor_reads_parameters opts n0 Hnew)
      as (_ & _ & _ & _ & _ & _ & _ & ml & mr & _ & _ & Hu).
    now exists ml, mr.
  - apply spin_keeps_fused_from. constructor.
  - intros. apply cycle_fuses_in_order.
Qed.

(** ** The configuration *)

Lemma cycle_keeps_config
    (n : Node) (tf2 : Buffer) (input_obstacle_msg input_raw_msg : PointCloud2) :
  config_of (fst (cycle n tf2 input_obstacle_msg input_raw_msg)) = config_of n.
Proof.
  destruct (cycle_fuses_in_order n tf2 input_obstacle_msg input_raw_msg)
    as [_ [[_ ->] | Hfuse]]; [reflexivity |].
  destruct Hfuse
    as (b & cx & cy & res & f & x0 & y0 & g & r & o & rp & so & m & _ & _ & ->).
  reflexivity.
Qed.

Lemma spin_keeps_config (inputs : list Inputs) :
  forall n : Node, config_of (fst (spin n inputs)) = config_of n.
Proof.
  induction inputs as [| i rest IH]; intros n; cbn [spin]; [reflexivity |].
  pose proof (cycle_keeps_config n (in_tf2 i) (in_obstacle i) (in_raw i)) as Hstep.
  destruct (cycle n (in_tf2 i) (in_obstacle i) (in_raw i)) as [n1 l1].
  specialize (IH n1). destruct (spin n1 rest) as [n2 l2].
  cbn [fst] in *. congruence.
Qed.

(** C8.  The constructor takes each configuration member from one
    [declare_parameter], and the map length and resolution go to the
    constructor of the persistent map; no cycle changes a configuration
    member: after any sequence of cycles the configuration is the one the
    constructor read. *)
Theorem configuration_is_read_once_and_kept
    (opts : NodeOptions) (n0 : Node) (inputs : list Inputs) :
  PointcloudBasedOccupancyGridMapNode opts = Some n0 ->
  (declare_parameter_string opts "map_frame" "map" = Some (map_frame_ n0) /\
   declare_parameter_string opts "base_link_frame" "base_link" =
     Some (base_link_frame_ n0) /\
   declare_parameter_string opts "gridmap_origin_frame" "base_link" =
     Some (gridmap_origin_frame_ n0) /\
   declare_parameter_string opts "scan_origin_frame" "base_link" =
     Some (scan_origin_frame_ n0) /\
   declare_parameter_bool opts "use_height_filter" true =
     Some (use_height_filter_ n0) /\
   declare_parameter_bool opts "enable_single_frame_mode" false =
     Some (enable_single_frame_mode_ n0) /\
   declare_parameter_bool opts
     "filter_obstacle_pointcloud_by_raw_pointcloud" false =
     Some (filter_obstacle_pointcloud_by_raw_pointcloud_ n0) /\
   exists map_length' map_resolution,
     declare_parameter_double opts "map_length" 100%float = Some map_length' /\
     declare_parameter_double opts "map_resolution" 0.5%float =
       Some map_resolution /\
     occupancy_grid_map_updater_ptr_ n0 =
       OccupancyGridMapBBFUpdater
         (PrimFloat.div map_length' map_resolution)
         (PrimFloat.div map_length' map_resolution) map_resolution) /\
  config_of (fst (spin n0 inputs)) = config_of n0 /\
  (forall n tf2 input_obstacle_msg input_raw_msg,
     config_of (fst (cycle n tf2 input_obstacle_msg input_raw_msg)) =
       config_of n).
Proof.
  intros Hnew. split; [| split].
  - exact (constructor_reads_parameters opts n0 Hnew).
  - apply spin_keeps_config.
  - intros. apply cycle_keeps_config.
Qed.

(** ** The two filters *)

(** C9.  With the height filter on, the cycle first crops the obstacle
    cloud and then the raw cloud to the band from -1.0 to 2.0 in the base
    link frame.  If one of the two crops fails, the cycle ends there: the
    node is as it was, the crops are its only calls, so nothing is built,
    fused, logged or published.  If both succeed, every later call works on
    the cropped clouds: the common points are extracted from them and the
    raycaster gets the cropped raw cloud and the cropped obstacle cloud or
    its common part. *)
Theorem height_filter_crops_or_abandons
    (n : Node) (tf2 : Buffer) (input_obstacle_msg input_raw_msg : PointCloud2) :
  use_height_filter_ n = true ->
  let n' := fst (cycle n tf2 input_obstacle_msg input_raw_msg) in
  let calls := snd (cycle n tf2 input_obstacle_msg input_raw_msg) in
  ((crop_to_band n tf2 input_obstacle_msg = None \/
    crop_to_band n tf2 input_raw_msg = None) ->
   n' = n /\ forallb is_crop calls = true /\
   created calls = [] /\ fused calls = [] /\
   warned calls = [] /\ published calls = []) /\
  (forall a b,
     crop_to_band n tf2 input_obstacle_msg = Some a ->
     crop_to_band n tf2 input_raw_msg = Some b ->
     exists rest,
       calls =
         Call_cropPointcloudByHeight input_obstacle_msg (Some a)
         :: Call_cropPointcloudByHeight input_raw_msg (Some b) :: rest /\
       existsb is_crop rest = false /\
       (forall o r c,
          In (Call_extractCommonPointCloud o r c) rest -> o = a /\ r = b) /\
       (forall c,
          In c (raycast_clouds rest) ->
          fst c = b /\
          (snd c = a \/ extractCommonPointCloud a b = Some (snd c)))).
Proof.
  destruct n as [mf bl go so hf sfm fbr u];
    unfold crop_to_band; cbn [use_height_filter_ base_link_frame_].
  intros ->.
  destruct fbr, sfm; run_callback; cbn;
    (split;
     [ intros [H | H]; first [discriminate H | repeat split; reflexivity]
     | intros a b Ha Hb; first [discriminate Ha | discriminate Hb | idtac] ]).
  all: injection Ha as <-; injection Hb as <-.
  all: eexists; split; [reflexivity |]; split; [reflexivity |].
  all: split;
    [ intros o r c Hin; cbn in Hin; intuition congruence
    | intros c Hin; cbn in Hin;
      first [contradiction | destruct Hin as [<- | []]; cbn; auto] ].
Qed.

(** C10.  With filtering by the raw cloud on, when the common points of the
    two height-filtered clouds cannot be extracted the cycle goes on with
    the obstacle cloud as the height filter left it: apart from the failed
    call it is, call by call, the cycle of the same node with the filtering
    off, the raycaster is given that obstacle cloud, and when the poses
    resolve one message is published, after one [update] unless the node is
    in single-frame mode. *)
Theorem failed_extraction_falls_back
    (n : Node) (tf2 : Buffer) (input_obstacle_msg input_raw_msg : PointCloud2)
    (fo fr : PointCloud2) :
  filter_obstacle_pointcloud_by_raw_pointcloud_ n = true ->
  height_filtered n tf2 input_obstacle_msg input_raw_msg fo fr ->
  extractCommonPointCloud fo fr = None ->
  let n' := fst (cycle n tf2 input_obstacle_msg input_raw_msg) in
  let calls := snd (cycle n tf2 input_obstacle_msg input_raw_msg) in
  let unfiltered :=
    cycle (without_raw_filter n) tf2 input_obstacle_msg input_raw_msg in
  without_raw_filter n' = fst unfiltered /\
  filter (fun c => negb (is_extract c)) calls = snd unfiltered /\
  In (Call_extractCommonPointCloud fo fr None) calls /\
  (forall c, In c (raycast_clouds calls) -> c = (fr, fo)) /\
  (forall robot_pose gridmap_origin scan_origin,
     poses_resolve n tf2 input_raw_msg robot_pose gridmap_origin scan_origin ->
     raycast_clouds calls = [(fr, fo)] /\
     (exists msg, published calls = [msg]) /\
     List.length (fused calls) =
       (if enable_single_frame_mode_ n then 0 else 1)%nat).
Proof.
  destruct n as [mf bl go so hf sfm fbr u];
    unfold height_filtered, crop_to_band, poses_resolve, without_raw_filter;
    cbn [use_height_filter_ base_link_frame_ map_frame_ gridmap_origin_frame_
         scan_origin_frame_ enable_single_frame_mode_
         filter_obstacle_pointcloud_by_raw_pointcloud_
         occupancy_grid_map_updater_ptr_].
  intros -> Hfiltered Hcommon.
  destruct hf; destruct Hfiltered as [Ho Hr]; subst;
    unfold_callback; cbn; rewrite ?Ho, ?Hr; cbn; rewrite Hcommon; cbn;
    destruct sfm; repeat next_branch.
  all: (split; [reflexivity |]); (split; [reflexivity |]).
  all: split; [repeat first [left; reflexivity | right] |].
  all: split;
    [ intros c Hin; cbn in Hin;
      first [contradiction | destruct Hin as [<- | []]; reflexivity]
    | intros rp gp sp (Hrp & Hgp & Hsp);
      first [ discriminate
            | split; [reflexivity |];
              split; [eexists; reflexivity | reflexivity] ] ].
Qed.

(** ** The platform pose *)


(** * More of the callback *)

(** ** Its paths *)

Lemma path_with
    (n : Node) (tf2 : Buffer) (input_obstacle_msg input_raw_msg : PointCloud2)
    (flow : Flow unit) (n1 n2 : Node) (calls1 calls2 : list Call) :
  callback_path n tf2 input_obstacle_msg input_raw_msg flow n1 calls1 ->
  n1 = n2 -> calls1 = calls2 ->
  callback_path n tf2 input_obstacle_msg input_raw_msg flow n2 calls2.
Proof. now intros H <- <-. Qed.

(** The premises of a path, from the results the case split has named. *)
Ltac premise :=
  cbv [height_filtered poses_resolve crop_to_band use_height_filter_
       base_link_frame_ map_frame_ gridmap_origin_frame_ scan_origin_frame_
       enable_single_frame_mode_];
  repeat split; first [eassumption | reflexivity].

(** The node and the calls of a path are those of the goal, once the result
    of the extraction is put in. *)
Ltac same_as_path :=
  cbv [crop_calls extract_calls obstacle_for_raycaster centred_grid
       single_frame_of build_calls fresh_grid output_of set_updater
       use_height_filter_ filter_obstacle_pointcloud_by_raw_pointcloud_
       occupancy_grid_map_updater_ptr_ map_frame_ base_link_frame_
       gridmap_origin_frame_ scan_origin_frame_ enable_single_frame_mode_
       app fst snd];
  repeat
    match goal with
    | H : extractCommonPointCloud _ _ = _ |- _ => rewrite H
    end;
  reflexivity.

Ltac take_path path :=
  solve [ eapply path_with; [ eapply path; premise | same_as_path | same_as_path ] ].

(** Every callback follows one of the seven paths. *)
Lemma callback_follows_path
    (n : Node) (tf2 : Buffer) (input_obstacle_msg input_raw_msg : PointCloud2) :
  callback_path n tf2 input_obstacle_msg input_raw_msg
    (fst (fst (onPointcloudWithObstacleAndRaw
                 tf2 input_obstacle_msg input_raw_msg n)))
    (snd (fst (onPointcloudWithObstacleAndRaw
                 tf2 input_obstacle_msg input_raw_msg n)))
    (snd (onPointcloudWithObstacleAndRaw
            tf2 input_obstacle_msg input_raw_msg n)).
Proof.
  destruct n as [mf bl go so hf sfm fbr u].
  destruct hf, fbr, sfm; run_callback;
    first
      [ take_path path_obstacle_crop_fails
      | take_path path_raw_crop_fails
      | take_path path_robot_pose_fails
      | take_path path_gridmap_origin_fails
      | take_path path_scan_origin_fails
      | take_path path_single_frame
      | take_path path_fused ].
Qed.


Lemma cycle_follows_path
    (n : Node) (tf2 : Buffer) (input_obstacle_msg input_raw_msg : PointCloud2) :
  exists flow,
    callback_path n tf2 input_obstacle_msg input_raw_msg flow
      (fst (cycle n tf2 input_obstacle_msg input_raw_msg))
      (snd (cycle n tf2 input_obstacle_msg input_raw_msg)).
Proof.
  pose proof
    (callback_follows_path n tf2 input_obstacle_msg input_raw_msg) as Hpath.
  unfold cycle.
  destruct (onPointcloudWithObstacleAndRaw
              tf2 input_obstacle_msg input_raw_msg n) as [[flow n'] calls].
  exists flow. exact Hpath.
Qed.

(** Names the node and the calls of a cycle and splits on its path. *)
Ltac by_path n tf2 obs raw :=
  let flow := fresh "flow" in
  let Hpath := fresh "Hpath" in
  destruct (cycle_follows_path n tf2 obs raw) as [flow Hpath];
  destruct Hpath;
  repeat match goal with v := _ |- _ => subst v end.

(** Two results of the same call are the same result. *)
Ltac same_results :=
  unfold height_filtered, poses_resolve, pose_lookup_fails, crop_to_band in *;
  repeat
    first
      [ progress subst
      | match goal with
        | H : _ /\ _ |- _ => destruct H
        | H : exists _, _ |- _ => destruct H
        | H : _ = _ |- _ => discriminate H
        | H : context [if ?b then _ else _] |- _ =>
            let E := fresh "E" in destruct b eqn:E; try rewrite E in *
        | H : ?a = ?b, H' : ?a = ?c |- _ =>
            first [ constr_eq b c; clear H'
                  | rewrite H in H';
                    first [discriminate H' | injection H' as H'] ]
        end ].

(** Evaluates the readers on the calls of a path. *)
Ltac read_calls :=
  unfold crop_calls, extract_calls, build_calls in *;
  repeat
    match goal with
    | E : ?b = _ |- context [if ?b then _ else _] => rewrite E
    | E : ?b = _, H : context [if ?b then _ else _] |- _ => rewrite E in H
    | |- context [if ?b then _ else _] => destruct b eqn:?
    | H : context [if ?b then _ else _] |- _ => destruct b eqn:?
    end;
  cbn in *.

(** ** The fused map *)

(** X1.  Out of single-frame mode, every single-frame grid the raycaster
    fills is fused into the persistent map by one [update], and the message
    published is the quantization of the persistent map as [update] left
    it, at the stamp of the raw cloud; a cycle that fills no grid leaves
    the persistent map as it was. *)
Theorem fusion_publishes_updated_map
    (n : Node) (tf2 : Buffer) (input_obstacle_msg input_raw_msg : PointCloud2) :
  enable_single_frame_mode_ n = false ->
  let n' := fst (cycle n tf2 input_obstacle_msg input_raw_msg) in
  let calls := snd (cycle n tf2 input_obstacle_msg input_raw_msg) in
  let updated (f : Pose * Costmap2D) :=
    update (occupancy_grid_map_updater_ptr_ n) (snd f) in
  fused calls = map snd (filled calls) /\
  quantized calls = map (fun f => updater_costmap (updated f)) (filled calls) /\
  published calls =
    map (fun f => output_of n input_raw_msg (fst f, updater_costmap (updated f)))
        (filled calls) /\
  occupancy_grid_map_updater_ptr_ n' =
    fold_left (fun u f => update u (snd f)) (filled calls)
      (occupancy_grid_map_updater_ptr_ n).
Proof.
  intros Hmode; cbv zeta.
  by_path n tf2 input_obstacle_msg input_raw_msg;
    try congruence; read_calls; auto.
Qed.

(** ** When a map is published *)

(** X2.  A cycle publishes one message when the height filter gives its
    clouds (or is off) and the three poses resolve, and none otherwise:
    never more than one. *)
Theorem publishes_iff_filtered_and_resolved
    (n : Node) (tf2 : Buffer) (input_obstacle_msg input_raw_msg : PointCloud2) :
  let calls := snd (cycle n tf2 input_obstacle_msg input_raw_msg) in
  (published calls = [] \/ exists msg, published calls = [msg]) /\
  ((exists msg, published calls = [msg]) <->
   (exists fo fr,
      height_filtered n tf2 input_obstacle_msg input_raw_msg fo fr) /\
   (exists robot_pose gridmap_origin scan_origin,
      poses_resolve n tf2 input_raw_msg robot_pose gridmap_origin scan_origin)).
Proof.
  cbv zeta.
  by_path n tf2 input_obstacle_msg input_raw_msg.
  1-5: split; [left; read_calls; reflexivity |];
       split; [intros [msg Hmsg]; read_calls; discriminate Hmsg |];
       intros [(fo' & fr' & Hf) (rp & gp & sp & Hp)];
       exfalso; same_results; congruence.
  all: split; [right; read_calls; eexists; reflexivity |];
       split; [intros _; split; eauto 6
              | intros _; read_calls; eexists; reflexivity].
Qed.

(** ** The pose lookups *)

(** X3.  After the height filter the cycle looks up the robot pose, the
    grid origin and the scan origin in this order and stops at the first
    lookup that throws; it logs the message of that exception, once, and
    logs nothing when the three resolve.  When the height filter fails no
    pose is looked up. *)
Theorem lookups_stop_at_first_failure
    (n : Node) (tf2 : Buffer) (input_obstacle_msg input_raw_msg : PointCloud2) :
  let calls := snd (cycle n tf2 input_obstacle_msg input_raw_msg) in
  let r1 := getPose_header (pc_header input_raw_msg) tf2 (map_frame_ n) in
  let r2 :=
    getPose_stamp (stamp (pc_header input_raw_msg)) tf2
      (gridmap_origin_frame_ n) (map_frame_ n) in
  let r3 :=
    getPose_stamp (stamp (pc_header input_raw_msg)) tf2
      (scan_origin_frame_ n) (map_frame_ n) in
  ((forall fo fr,
      ~ height_filtered n tf2 input_obstacle_msg input_raw_msg fo fr) ->
   lookups calls = [] /\ warned calls = []) /\
  (forall fo fr,
     height_filtered n tf2 input_obstacle_msg input_raw_msg fo fr ->
     lookups calls =
       match r1, r2 with
       | inr _, _ => [r1]
       | inl _, inr _ => [r1; r2]
       | inl _, inl _ => [r1; r2; r3]
       end /\
     warned calls =
       match r1, r2, r3 with
       | inr ex, _, _ => [ex]
       | inl _, inr ex, _ => [ex]
       | inl _, inl _, inr ex => [ex]
       | inl _, inl _, inl _ => []
       end).
Proof.
  cbv zeta.
  by_path n tf2 input_obstacle_msg input_raw_msg.
  1-2: split; [intros _; split; reflexivity |];
       intros fo' fr' Hf; exfalso; same_results.
  all: split;
    [ intros Hnone; exfalso; eapply Hnone; eassumption
    | intros fo' fr' Hf; same_results;
      repeat
        match goal with
        | H : ?a = _ |- context [?a] => rewrite H
        end;
      read_calls; split; reflexivity ].
Qed.

(** ** What the raycaster is given *)

(** X4.  When the height filter gives [fo] and [fr] (the input clouds when
    it is off), the crops are the two that gave them (none when it is
    off); the common points are extracted from [fo] and [fr], once, when
    filtering by the raw cloud is on, and never when it is off; and when
    the poses resolve the one call of [updateWithPointCloud] is on the new
    centred grid, with [fr] as raw cloud, with the extracted cloud as
    obstacle cloud if the extraction was asked and succeeded and [fo] if
    not, and with the robot pose and the scan origin looked up. *)
Theorem raycaster_gets_filtered_clouds
    (n : Node) (tf2 : Buffer) (input_obstacle_msg input_raw_msg : PointCloud2)
    (fo fr : PointCloud2) :
  height_filtered n tf2 input_obstacle_msg input_raw_msg fo fr ->
  let calls := snd (cycle n tf2 input_obstacle_msg input_raw_msg) in
  filter is_crop calls = crop_calls n input_obstacle_msg input_raw_msg fo fr /\
  filter is_extract calls = extract_calls n fo fr /\
  (forall robot_pose gridmap_origin scan_origin,
     poses_resolve n tf2 input_raw_msg robot_pose gridmap_origin scan_origin ->
     filter is_raycast calls =
       [ Call_updateWithPointCloud
           (centred_grid n gridmap_origin)
           fr (obstacle_for_raycaster n fo fr) robot_pose scan_origin
           (single_frame_of n fo fr robot_pose gridmap_origin scan_origin) ]).
Proof.
  intros Hf; cbv zeta.
  by_path n tf2 input_obstacle_msg input_raw_msg; same_results.
  all: split; [read_calls; reflexivity |];
       split; [read_calls; reflexivity |];
       intros rp gp sp Hp; same_results; read_calls; reflexivity.
Qed.

(** ** The grid origin *)

(** X5.  Of the grid origin pose the node uses the x and the y of the
    position and nothing else: two cycles that differ only in the grid
    origin pose, and there only in its height or its orientation, leave the
    same node, fill the same single-frame grid and publish the same
    message. *)
Theorem gridmap_origin_height_and_heading_are_ignored
    (n : Node) (tfa tfb : Buffer) (input_obstacle_msg input_raw_msg : PointCloud2)
    (ga gb : Pose) :
  differ_only_in_gridmap_origin
    n tfa tfb input_obstacle_msg input_raw_msg ga gb ->
  x (position ga) = x (position gb) ->
  y (position ga) = y (position gb) ->
  let cycle_a := cycle n tfa input_obstacle_msg input_raw_msg in
  let cycle_b := cycle n tfb input_obstacle_msg input_raw_msg in
  fst cycle_a = fst cycle_b /\
  handed_to_raycaster (snd cycle_a) = handed_to_raycaster (snd cycle_b) /\
  filled (snd cycle_a) = filled (snd cycle_b) /\
  published (snd cycle_a) = published (snd cycle_b).
Proof.
  intros (Hco & Hcr & Hrp & Hso & Hga & Hgb) Hx Hy; cbv zeta.
  by_path n tfa input_obstacle_msg input_raw_msg;
    by_path n tfb input_obstacle_msg input_raw_msg;
    unfold height_filtered, poses_resolve, crop_to_band in *;
    try rewrite Hco in *; try rewrite Hcr in *;
    try rewrite Hrp in *; try rewrite Hso in *;
    same_results.
  all: read_calls;
    unfold single_frame_of, centred_grid, output_of;
    cbn [fst snd]; rewrite ?Hx, ?Hy; auto.
Qed.

(** ** The persistent map and the single-frame grid *)

(** X6.  Of the persistent map a cycle reads the two cell dimensions and
    the resolution before it fuses: on two nodes of the same configuration
    whose persistent maps agree in these, whatever their cells and their
    origins, a cycle fills the same single-frame grid, and in single-frame
    mode publishes the same message. *)
Theorem single_frame_grid_ignores_persistent_cells
    (n1 n2 : Node) (tf2 : Buffer) (input_obstacle_msg input_raw_msg : PointCloud2) :
  config_of n1 = config_of n2 ->
  getSizeInCellsX (updater_costmap (occupancy_grid_map_updater_ptr_ n1)) =
  getSizeInCellsX (updater_costmap (occupancy_grid_map_updater_ptr_ n2)) ->
  getSizeInCellsY (updater_costmap (occupancy_grid_map_updater_ptr_ n1)) =
  getSizeInCellsY (updater_costmap (occupancy_grid_map_updater_ptr_ n2)) ->
  getResolution (updater_costmap (occupancy_grid_map_updater_ptr_ n1)) =
  getResolution (updater_costmap (occupancy_grid_map_updater_ptr_ n2)) ->
  let calls1 := snd (cycle n1 tf2 input_obstacle_msg input_raw_msg) in
  let calls2 := snd (cycle n2 tf2 input_obstacle_msg input_raw_msg) in
  filled calls1 = filled calls2 /\
  (enable_single_frame_mode_ n1 = true -> published calls1 = published calls2).
Proof.
  intros Hcfg Hsx Hsy Hres; cbv zeta.
  unfold config_of in Hcfg; injection Hcfg as Emf Ebl Ego Eso Ehf Esfm Efbr.
  by_path n1 tf2 input_obstacle_msg input_raw_msg;
    by_path n2 tf2 input_obstacle_msg input_raw_msg;
    unfold height_filtered, poses_resolve, crop_to_band in *;
    rewrite ?Emf, ?Ebl, ?Ego, ?Eso, ?Ehf, ?Esfm, ?Efbr in *;
    same_results.
  all: read_calls;
    unfold single_frame_of, centred_grid, fresh_grid, obstacle_for_raycaster,
      output_of;
    read_calls; rewrite ?Emf, ?Hsx, ?Hsy, ?Hres;
    (split; [reflexivity | intros Hmode; first [reflexivity | congruence]]).
Qed.

(** ** Runs *)

Lemma published_app (calls1 calls2 : list Call) :
  published (calls1 ++ calls2) = published calls1 ++ published calls2.
Proof.
  induction calls1 as [| c calls1 IH]; [reflexivity |].
  destruct c; cbn; now rewrite ?IH.
Qed.

Lemma fused_app (calls1 calls2 : list Call) :
  fused (calls1 ++ calls2) = fused calls1 ++ fused calls2.
Proof.
  induction calls1 as [| c calls1 IH]; [reflexivity |].
  destruct c; cbn; now rewrite ?IH.
Qed.

Lemma spin_cons (n : Node) (i : Inputs) (rest : list Inputs) :
  let first := cycle n (in_tf2 i) (in_obstacle i) (in_raw i) in
  fst (spin n (i :: rest)) = fst (spin (fst first) rest) /\
  snd (spin n (i :: rest)) = snd first ++ snd (spin (fst first) rest).
Proof.
  cbn [spin].
  destruct (cycle n (in_tf2 i) (in_obstacle i) (in_raw i)) as [n1 l1].
  cbn [fst snd]. destruct (spin n1 rest) as [n2 l2]. split; reflexivity.
Qed.

(** What one cycle publishes and fuses, counted. *)
Lemma cycle_counts
    (n : Node) (tf2 : Buffer) (input_obstacle_msg input_raw_msg : PointCloud2) :
  let n' := fst (cycle n tf2 input_obstacle_msg input_raw_msg) in
  let calls := snd (cycle n tf2 input_obstacle_msg input_raw_msg) in
  (List.length (published calls) <= 1)%nat /\
  (enable_single_frame_mode_ n = true -> n' = n /\ fused calls = []) /\
  (enable_single_frame_mode_ n = false ->
   List.length (fused calls) = List.length (published calls)).
Proof.
  cbv zeta.
  by_path n tf2 input_obstacle_msg input_raw_msg; read_calls;
    repeat split; auto; congruence.
Qed.

Lemma cycle_keeps_mode
    (n : Node) (tf2 : Buffer) (input_obstacle_msg input_raw_msg : PointCloud2) :
  enable_single_frame_mode_ (fst (cycle n tf2 input_obstacle_msg input_raw_msg)) =
  enable_single_frame_mode_ n.
Proof.
  exact (f_equal cfg_enable_single_frame_mode
           (cycle_keeps_config n tf2 input_obstacle_msg input_raw_msg)).
Qed.

(** X7.  Over any run the node publishes at most one map for each
    synchronized pair of clouds it is called with. *)
Theorem run_publishes_at_most_one_map_per_pair (inputs : list Inputs) :
  forall n : Node,
    (List.length (published (snd (spin n inputs))) <= List.length inputs)%nat.
Proof.
  induction inputs as [| i rest IH]; intros n; [cbn; lia |].
  destruct (spin_cons n i rest) as [_ ->].
  rewrite published_app, length_app. cbn [List.length].
  pose proof (cycle_counts n (in_tf2 i) (in_obstacle i) (in_raw i))
    as [Hone _].
  specialize (IH (fst (cycle n (in_tf2 i) (in_obstacle i) (in_raw i)))).
  lia.
Qed.

(** X8.  A node in single-frame mode has no memory: after any run it is
    the node it was, and the calls of the run are those of its cycles each
    started from that same node, so that each output depends on the inputs
    of its own cycle only. *)
Theorem single_frame_run_is_stateless (inputs : list Inputs) (n : Node) :
  enable_single_frame_mode_ n = true ->
  fst (spin n inputs) = n /\ snd (spin n inputs) = calls_from n inputs.
Proof.
  intros Hmode.
  induction inputs as [| i rest [IHn IHcalls]]; [split; reflexivity |].
  destruct (spin_cons n i rest) as [-> ->].
  destruct (cycle_counts n (in_tf2 i) (in_obstacle i) (in_raw i))
    as (_ & Hsingle & _).
  destruct (Hsingle Hmode) as [-> _].
  split; [exact IHn |].
  rewrite IHcalls. reflexivity.
Qed.

(** X9.  Over any run, a node out of single-frame mode updates its
    persistent map exactly as many times as it publishes a map, and a node
    in single-frame mode never updates it. *)
Theorem run_fuses_once_per_published_map (inputs : list Inputs) :
  forall n : Node,
    let calls := snd (spin n inputs) in
    (enable_single_frame_mode_ n = true -> fused calls = []) /\
    (enable_single_frame_mode_ n = false ->
     List.length (fused calls) = List.length (published calls)).
Proof.
  induction inputs as [| i rest IH]; intros n; cbv zeta;
    [split; reflexivity |].
  destruct (spin_cons n i rest) as [_ ->].
  rewrite fused_app, published_app, !length_app.
  destruct (cycle_counts n (in_tf2 i) (in_obstacle i) (in_raw i))
    as (_ & Hsingle & Hfusing).
  destruct (IH (fst (cycle n (in_tf2 i) (in_obstacle i) (in_raw i))))
    as [IHsingle IHfusing].
  rewrite cycle_keeps_mode in IHsingle, IHfusing.
  split; intros Hmode.
  - destruct (Hsingle Hmode) as [_ ->]. now rewrite IHsingle.
  - now rewrite Hfusing, IHfusing.
Qed.

End Facts.

(** * The callback with the debug tool *)

Section TimingFacts.

Context {host : Collaborators} {tool : DebugTool}.

(** A callback runs to its end exactly when it publishes. *)
Lemma callback_ends_or_publishes
    (n : Node) (tf2 : Buffer) (input_obstacle_msg input_raw_msg : PointCloud2) :
  let result :=
    onPointcloudWithObstacleAndRaw tf2 input_obstacle_msg input_raw_msg n in
  (fst (fst result) = Return /\ published (snd result) = []) \/
  (fst (fst result) = Next tt /\ exists msg, published (snd result) = [msg]).
Proof.
  cbv zeta.
  destruct (callback_follows_path n tf2 input_obstacle_msg input_raw_msg);
    [left | left | left | left | left | right | right];
    (split; [reflexivity |]);
    unfold crop_calls, extract_calls, build_calls;
    destruct (use_height_filter_ n),
             (filter_obstacle_pointcloud_by_raw_pointcloud_ n);
    cbn; eauto.
Qed.

(** X11.  A cycle that publishes no map publishes no timing either, but it
    has restarted the processing-time stop watch at its entry: its one call
    on the debug tool is [toc ("processing_time", true)], before any call
    of the callback proper, and the node and the other calls are those of
    the callback without the debug tool. *)
Theorem abandoned_cycle_restarts_stop_watch_only
    (clock_enter clock_cyclic clock_processing : Clock)
    (tf2 : Buffer) (input_obstacle_msg input_raw_msg : PointCloud2)
    (this : TimedNode) (sw : StopWatch) :
  stop_watch_ptr_ this = Some sw ->
  published (snd (cycle (node_ this) tf2 input_obstacle_msg input_raw_msg)) = [] ->
  let result :=
    onPointcloudWithObstacleAndRaw_with_debug_tool
      clock_enter clock_cyclic clock_processing
      tf2 input_obstacle_msg input_raw_msg this in
  let entered := toc sw "processing_time" true clock_enter in
  node_ (fst result) = node_ this /\
  stop_watch_ptr_ (fst result) = Some (snd entered) /\
  snd result =
    Timed_toc "processing_time" true (fst entered)
    :: map Timed_call
         (snd (cycle (node_ this) tf2 input_obstacle_msg input_raw_msg)) /\
  debug_published (snd result) = [].
Proof.
  intros Hsw Hnone; cbv zeta.
  pose proof
    (callback_ends_or_publishes
       (node_ this) tf2 input_obstacle_msg input_raw_msg) as Hends.
  pose proof
    (callback_follows_path
       (node_ this) tf2 input_obstacle_msg input_raw_msg) as Hpath.
  unfold onPointcloudWithObstacleAndRaw_with_debug_tool, cycle in *.
  rewrite Hsw.
  destruct (onPointcloudWithObstacleAndRaw
              tf2 input_obstacle_msg input_raw_msg (node_ this))
    as [[flow n'] calls].
  cbn [fst snd] in *.
  destruct Hends as [[-> _] | [_ [msg Hmsg]]]; [| congruence].
  assert (Hnode : n' = node_ this) by (inversion Hpath; reflexivity).
  subst n'. cbn [fst snd app node_ stop_watch_ptr_].
  repeat split.
  clear. induction calls as [| c calls IH]; [reflexivity | exact IH].
Qed.

Lemma node_calls_of_callback (calls : list Call) :
  node_calls (map Timed_call calls) = calls.
Proof.
  induction calls as [| c calls IH]; [reflexivity |].
  cbn. now rewrite IH.
Qed.

Lemma no_timing_in_callback (calls : list Call) :
  debug_published (map Timed_call calls) = [] /\
  stop_watch_calls (map Timed_call calls) = [].
Proof.
  induction calls as [| c calls IH]; [split; reflexivity | exact IH].
Qed.

Lemma debug_published_app (calls1 calls2 : list TimedCall) :
  debug_published (calls1 ++ calls2) =
  debug_published calls1 ++ debug_published calls2.
Proof.
  induction calls1 as [| c calls1 IH]; [reflexivity |].
  destruct c; cbn; now rewrite ?IH.
Qed.

Lemma stop_watch_calls_app (calls1 calls2 : list TimedCall) :
  stop_watch_calls (calls1 ++ calls2) =
  stop_watch_calls calls1 ++ stop_watch_calls calls2.
Proof.
  induction calls1 as [| c calls1 IH]; [reflexivity |].
  destruct c; cbn; now rewrite ?IH.
Qed.

Lemma node_calls_app (calls1 calls2 : list TimedCall) :
  node_calls (calls1 ++ calls2) = node_calls calls1 ++ node_calls calls2.
Proof.
  induction calls1 as [| c calls1 IH]; [reflexivity |].
  destruct c; cbn; now rewrite ?IH.
Qed.

(** X12.  A cycle that publishes a map then reads the stop watch for the
    cyclic time and for the processing time, both with reset, and
    publishes the two values as "debug/cyclic_time_ms" and
    "debug/processing_time_ms", in this order and after every call of the
    callback proper; the processing time is read on the stop watch as the
    [toc] at the entry of this same callback restarted it. *)
Theorem completed_cycle_publishes_timing_after_map
    (clock_enter clock_cyclic clock_processing : Clock)
    (tf2 : Buffer) (input_obstacle_msg input_raw_msg : PointCloud2)
    (this : TimedNode) (sw : StopWatch) (dp : DebugPublisher) :
  stop_watch_ptr_ this = Some sw ->
  debug_publisher_ptr_ this = Some dp ->
  published (snd (cycle (node_ this) tf2 input_obstacle_msg input_raw_msg))
    <> [] ->
  let result :=
    onPointcloudWithObstacleAndRaw_with_debug_tool
      clock_enter clock_cyclic clock_processing
      tf2 input_obstacle_msg input_raw_msg this in
  let entered := toc sw "processing_time" true clock_enter in
  let cyclic := toc (snd entered) "cyclic_time" true clock_cyclic in
  let processing := toc (snd cyclic) "processing_time" true clock_processing in
  node_ (fst result) =
    fst (cycle (node_ this) tf2 input_obstacle_msg input_raw_msg) /\
  stop_watch_ptr_ (fst result) = Some (snd processing) /\
  snd result =
    Timed_toc "processing_time" true (fst entered)
    :: map Timed_call
         (snd (cycle (node_ this) tf2 input_obstacle_msg input_raw_msg))
    ++ [ Timed_toc "cyclic_time" true (fst cyclic);
         Timed_toc "processing_time" true (fst processing);
         Timed_debug_publish "debug/cyclic_time_ms" (fst cyclic);
         Timed_debug_publish "debug/processing_time_ms" (fst processing) ] /\
  debug_published (snd result) =
    [ ("debug/cyclic_time_ms"%string, fst cyclic);
      ("debug/processing_time_ms"%string, fst processing) ].
Proof.
  intros Hsw Hdp Hsome; cbv zeta.
  pose proof
    (callback_ends_or_publishes
       (node_ this) tf2 input_obstacle_msg input_raw_msg) as Hends.
  unfold onPointcloudWithObstacleAndRaw_with_debug_tool, cycle in *.
  rewrite Hsw, Hdp.
  destruct (onPointcloudWithObstacleAndRaw
              tf2 input_obstacle_msg input_raw_msg (node_ this))
    as [[flow n'] calls].
  cbn [fst snd] in *.
  destruct Hends as [[_ Hnone] | [-> _]]; [congruence |].
  cbn [fst snd app node_ stop_watch_ptr_].
  repeat split.
  cbn [debug_published]. rewrite debug_published_app.
  destruct (no_timing_in_callback calls) as [-> _]. reflexivity.
Qed.

(** One callback keeps the debug tool and times as the map is published. *)
Lemma timed_callback_counts
    (c1 c2 c3 : Clock)
    (tf2 : Buffer) (input_obstacle_msg input_raw_msg : PointCloud2)
    (this : TimedNode) :
  has_debug_tool this ->
  let result :=
    onPointcloudWithObstacleAndRaw_with_debug_tool
      c1 c2 c3 tf2 input_obstacle_msg input_raw_msg this in
  has_debug_tool (fst result) /\
  List.length (debug_published (snd result)) =
    (2 * List.length (published (node_calls (snd result))))%nat /\
  List.length (stop_watch_calls (snd result)) =
    (1 + 2 * List.length (published (node_calls (snd result))))%nat.
Proof.
  intros [Hsw Hdp]; cbv zeta.
  pose proof
    (callback_ends_or_publishes
       (node_ this) tf2 input_obstacle_msg input_raw_msg) as Hends.
  unfold has_debug_tool, onPointcloudWithObstacleAndRaw_with_debug_tool in *.
  destruct (stop_watch_ptr_ this) as [sw |]; [| congruence].
  destruct (debug_publisher_ptr_ this) as [dp |] eqn:Edp; [| congruence].
  destruct (onPointcloudWithObstacleAndRaw
              tf2 input_obstacle_msg input_raw_msg (node_ this))
    as [[flow n'] calls].
  cbn [fst snd] in *.
  destruct (no_timing_in_callback calls) as [Hdebug Hwatch].
  destruct Hends as [[-> Hnone] | [-> [msg Hmsg]]];
    cbn [fst snd app stop_watch_ptr_ debug_publisher_ptr_ debug_published
         stop_watch_calls node_calls];
    rewrite ?debug_published_app, ?stop_watch_calls_app, ?node_calls_app,
      ?node_calls_of_callback, ?Hdebug, ?Hwatch, ?Edp;
    cbn [debug_published stop_watch_calls node_calls app List.length];
    rewrite ?app_nil_r, ?Hnone, ?Hmsg;
    repeat split; congruence.
Qed.

(** X13.  A node made by the constructor has its debug tool, and keeps it:
    over any run it reads the stop watch once at the entry of every
    callback and twice more for every map it publishes, and it publishes
    two timing values for every map and none otherwise. *)
Theorem run_times_every_published_map
    (opts : NodeOptions) (c1 c2 : Clock) (this : TimedNode)
    (run : list TimedInputs) :
  PointcloudBasedOccupancyGridMapNode_with_debug_tool opts c1 c2 = Some this ->
  let calls := snd (spin_with_debug_tool this run) in
  let maps := List.length (published (node_calls calls)) in
  has_debug_tool (fst (spin_with_debug_tool this run)) /\
  List.length (debug_published calls) = (2 * maps)%nat /\
  List.length (stop_watch_calls calls) = (List.length run + 2 * maps)%nat.
Proof.
  intros Hnew; cbv zeta.
  assert (Htool : has_debug_tool this).
  { unfold PointcloudBasedOccupancyGridMapNode_with_debug_tool in Hnew.
    destruct (PointcloudBasedOccupancyGridMapNode opts); [| discriminate].
    injection Hnew as <-. split; discriminate. }
  clear Hnew. revert this Htool.
  induction run as [| i rest IH]; intros this Htool; cbn [spin_with_debug_tool];
    [repeat split; try reflexivity; apply Htool |].
  destruct
    (timed_callback_counts
       (clock_enter i) (clock_cyclic i) (clock_processing i)
       (in_tf2 (the_inputs i)) (in_obstacle (the_inputs i))
       (in_raw (the_inputs i)) this Htool)
    as (Hkept & Hdebug & Hwatch).
  destruct (IH _ Hkept) as (IHtool & IHdebug & IHwatch).
  cbn [fst snd].
  rewrite debug_published_app, stop_watch_calls_app, node_calls_app,
    published_app, !length_app, Hdebug, Hwatch, IHdebug, IHwatch.
  cbn [List.length]. split; [exact IHtool | lia].
Qed.

End TimingFacts.

(** * The node on the small host *)


(** A node in single-frame mode, one cycle: the node is as before. *)
Lemma single_frame_mode_bypasses_fusion_witness :
  enable_single_frame_mode_ (Sample.node true false) = true /\
  fst (cycle (Sample.node true false) Sample.tf
         Sample.obstacle_cloud Sample.raw_cloud) = Sample.node true false.
Proof.
  split; [reflexivity |].
  exact (proj1 (single_frame_mode_bypasses_fusion
                  (Sample.node true false) Sample.tf
                  Sample.obstacle_cloud Sample.raw_cloud eq_refl)).
Defined.

(** The buffer does not know the grid origin frame: nothing is published. *)
Lemma transform_failure_skips_cycle_witness :
  pose_lookup_fails (Sample.node false false) Sample.tf_no_grid_origin
    Sample.raw_cloud /\
  published
    (snd (cycle (Sample.node false false) Sample.tf_no_grid_origin
            Sample.obstacle_cloud Sample.raw_cloud)) = [].
Proof.
  assert (Hfails :
    pose_lookup_fails (Sample.node false false) Sample.tf_no_grid_origin
      Sample.raw_cloud).
  { right; left. eexists. reflexivity. }
  split; [exact Hfails |].
  apply (transform_failure_skips_cycle
           (Sample.node false false) Sample.tf_no_grid_origin
           Sample.obstacle_cloud Sample.raw_cloud Hfails).
Defined.



(** The clouds pass the height filter and the poses resolve: the grid
    origin is at (2, 1.5) and the map is 2 m wide, so the corner is asked
    at (1, 0.5).  The small host has the Grid of the spec and a map of
    4 x 4 cells of half a metre: the grid handed to the raycaster has 4 x 4
    cells and its corner at (1, 0.5). *)
Lemma single_frame_grid_is_fresh_and_centred_witness :
  origin_set_to (snd Sample.fusing_cycle) = [(1%float, 0.5%float)] /\
  exists g,
    handed_to_raycaster (snd Sample.fusing_cycle) = [g] /\
    getSizeInCellsX g = 4 /\ getSizeInCellsY g = 4 /\
    getOriginX g = 1%float /\ getOriginY g = 0.5%float.
Proof.
  destruct
    (single_frame_grid_is_fresh_and_centred
       (Sample.node false false) Sample.tf
       Sample.obstacle_cloud Sample.raw_cloud)
    as (_ & Hcalls & Hgrid).
  destruct
    (Hcalls Sample.obstacle_cloud
       (Sample.mkCloud Sample.base_link_header
          (firstn 2 (Sample.cloud_points Sample.raw_cloud)))
       (Sample.at_xyz 1%float 1%float 0.25%float)
       (Sample.at_xyz 2%float 1.5%float 0%float)
       (Sample.at_xyz 1%float 1%float 1.5%float))
    as ([_ Hasked] & _ & Hhanded).
  { split; reflexivity. }
  { repeat split; reflexivity. }
  split; [exact Hasked |].
  eexists. split; [exact Hhanded |].
  destruct (Hgrid) with (gridmap_origin := Sample.at_xyz 2%float 1.5%float 0%float)
    as (Hx & Hy & _ & _ & Hox & Hoy).
  { split.
    - intros cells_size_x cells_size_y resolution g. unfold create.
      destruct (InvalidDimension cells_size_x cells_size_y resolution);
        [discriminate | intros [= <-]; reflexivity].
    - reflexivity. }
  { reflexivity. }
  split; [exact Hx |]. split; [exact Hy |]. split; [exact Hox | exact Hoy].
Defined.

(** Two cycles of the constructed node. *)
Lemma persistent_map_is_only_fused_witness :
  fused_from
    (occupancy_grid_map_updater_ptr_ (Sample.node false false))
    (occupancy_grid_map_updater_ptr_
       (fst (spin (Sample.node false false)
               [ mkInputs Sample.tf Sample.obstacle_cloud Sample.raw_cloud;
                 mkInputs Sample.tf_moved Sample.obstacle_cloud
                   Sample.raw_cloud ]))).
Proof.
  exact
    (proj1 (proj2
       (persistent_map_is_only_fused
          (Sample.options false false) (Sample.node false false)
          [ mkInputs Sample.tf Sample.obstacle_cloud Sample.raw_cloud;
            mkInputs Sample.tf_moved Sample.obstacle_cloud Sample.raw_cloud ]
          eq_refl))).
Defined.

Lemma configuration_is_read_once_and_kept_witness :
  config_of
    (fst (spin (Sample.node true true)
            [ mkInputs Sample.tf Sample.obstacle_cloud Sample.raw_cloud;
              mkInputs Sample.tf_no_grid_origin Sample.stray_cloud
                Sample.raw_cloud ])) =
  config_of (Sample.node true true).
Proof.
  exact
    (proj1 (proj2
       (configuration_is_read_once_and_kept
          (Sample.options true true) (Sample.node true true)
          [ mkInputs Sample.tf Sample.obstacle_cloud Sample.raw_cloud;
            mkInputs Sample.tf_no_grid_origin Sample.stray_cloud
              Sample.raw_cloud ]
          eq_refl))).
Defined.

(** The obstacle cloud is in a frame the buffer does not know: its crop
    fails and the cycle ends. *)
Lemma height_filter_crops_or_abandons_witness :
  use_height_filter_ (Sample.node false false) = true /\
  fst (cycle (Sample.node false false) Sample.tf
         Sample.stray_cloud Sample.raw_cloud) = Sample.node false false.
Proof.
  split; [reflexivity |].
  refine
    (proj1
       (proj1
          (height_filter_crops_or_abandons
             (Sample.node false false) Sample.tf
             Sample.stray_cloud Sample.raw_cloud eq_refl) _)).
  left. reflexivity.
Defined.

(** The raw cloud has no returns: the common points cannot be extracted,
    and the raycaster gets the cropped obstacle cloud. *)
Lemma failed_extraction_falls_back_witness :
  raycast_clouds
    (snd (cycle (Sample.node false true) Sample.tf
            Sample.obstacle_cloud Sample.empty_raw_cloud)) =
  [(Sample.empty_raw_cloud, Sample.obstacle_cloud)].
Proof.
  refine
    (proj1
       (proj2 (proj2 (proj2 (proj2
          (failed_extraction_falls_back
             (Sample.node false true) Sample.tf
             Sample.obstacle_cloud Sample.empty_raw_cloud
             Sample.obstacle_cloud Sample.empty_raw_cloud eq_refl _ eq_refl))))
          (Sample.at_xyz 1%float 1%float 0.25%float)
          (Sample.at_xyz 2%float 1.5%float 0%float)
          (Sample.at_xyz 1%float 1%float 1.5%float) _)).
  - split; reflexivity.
  - repeat split; reflexivity.
Defined.

(** * More of the callback on the small host *)

Lemma fusion_publishes_updated_map_witness :
  fused (snd Sample.fusing_cycle) = map snd (filled (snd Sample.fusing_cycle)).
Proof.
  exact
    (proj1
       (fusion_publishes_updated_map
          (Sample.node false false) Sample.tf
          Sample.obstacle_cloud Sample.raw_cloud eq_refl)).
Defined.

(** The buffer does not know the grid origin: two lookups, one warning. *)
Lemma lookups_stop_at_first_failure_witness :
  warned
    (snd (cycle (Sample.node false false) Sample.tf_no_grid_origin
            Sample.obstacle_cloud Sample.raw_cloud)) =
  ["no transform from grid_origin"%string].
Proof.
  refine
    (proj2
       (proj2
          (lookups_stop_at_first_failure
             (Sample.node false false) Sample.tf_no_grid_origin
             Sample.obstacle_cloud Sample.raw_cloud)
          Sample.obstacle_cloud
          (Sample.mkCloud Sample.base_link_header
             (firstn 2 (Sample.cloud_points Sample.raw_cloud))) _)).
  split; reflexivity.
Defined.

Lemma raycaster_gets_filtered_clouds_witness :
  filter is_extract
    (snd (cycle (Sample.node false true) Sample.tf
            Sample.obstacle_cloud Sample.raw_cloud)) =
  [ Call_extractCommonPointCloud
      Sample.obstacle_cloud
      (Sample.mkCloud Sample.base_link_header
         (firstn 2 (Sample.cloud_points Sample.raw_cloud)))
      (Some Sample.obstacle_cloud) ].
Proof.
  refine
    (proj1 (proj2
       (raycaster_gets_filtered_clouds
          (Sample.node false true) Sample.tf
          Sample.obstacle_cloud Sample.raw_cloud
          Sample.obstacle_cloud
          (Sample.mkCloud Sample.base_link_header
             (firstn 2 (Sample.cloud_points Sample.raw_cloud))) _))).
  split; reflexivity.
Defined.

Lemma gridmap_origin_height_and_heading_are_ignored_witness :
  published (snd Sample.fusing_cycle) =
  published
    (snd (cycle (Sample.node false false) Sample.tf_origin_raised
            Sample.obstacle_cloud Sample.raw_cloud)).
Proof.
  refine
    (proj2 (proj2 (proj2
       (gridmap_origin_height_and_heading_are_ignored
          (Sample.node false false) Sample.tf Sample.tf_origin_raised
          Sample.obstacle_cloud Sample.raw_cloud
          (Sample.at_xyz 2%float 1.5%float 0%float)
          {| position := {| x := 2%float; y := 1.5%float; z := 3%float |};
             orientation :=
               {| qx := 0%float; qy := 0%float; qz := 1%float;
                  qw := 0%float |} |}
          _ eq_refl eq_refl)))).
  repeat split; reflexivity.
Defined.

Lemma single_frame_grid_ignores_persistent_cells_witness :
  published
    (snd (cycle (Sample.node true false) Sample.tf
            Sample.obstacle_cloud Sample.raw_cloud)) =
  published
    (snd (cycle Sample.node_with_history Sample.tf
            Sample.obstacle_cloud Sample.raw_cloud)).
Proof.
  exact
    (proj2
       (single_frame_grid_ignores_persistent_cells
          (Sample.node true false) Sample.node_with_history Sample.tf
          Sample.obstacle_cloud Sample.raw_cloud
          eq_refl eq_refl eq_refl eq_refl)
       eq_refl).
Defined.

Lemma single_frame_run_is_stateless_witness :
  fst (spin (Sample.node true false) Sample.run) = Sample.node true false.
Proof.
  exact
    (proj1
       (single_frame_run_is_stateless
          Sample.run (Sample.node true false) eq_refl)).
Defined.

Lemma run_fuses_once_per_published_map_witness :
  List.length (fused (snd (spin (Sample.node false false) Sample.run))) =
  List.length (published (snd (spin (Sample.node false false) Sample.run))).
Proof.
  exact
    (proj2
       (run_fuses_once_per_published_map
          Sample.run (Sample.node false false))
       eq_refl).
Defined.

(** The obstacle cloud cannot be cropped: the stop watch is read once, at
    time 200, and nothing is published. *)
Lemma abandoned_cycle_restarts_stop_watch_only_witness :
  debug_published
    (snd (onPointcloudWithObstacleAndRaw_with_debug_tool
            200%float 210%float 210%float Sample.tf
            Sample.stray_cloud Sample.raw_cloud
            (Sample.timed_node false false))) = [].
Proof.
  refine
    (proj2 (proj2 (proj2
       (abandoned_cycle_restarts_stop_watch_only
          200%float 210%float 210%float Sample.tf
          Sample.stray_cloud Sample.raw_cloud
          (Sample.timed_node false false)
          (Sample.watch_tic (Sample.watch_tic [] "cyclic_time" 0%float)
             "processing_time" 0%float)
          eq_refl _)))).
  reflexivity.
Defined.

(** Entered at 100, finished at 130: 130 ms since the constructor, 30 ms
    in the callback. *)
Lemma completed_cycle_publishes_timing_after_map_witness :
  debug_published
    (snd (onPointcloudWithObstacleAndRaw_with_debug_tool
            100%float 130%float 130%float Sample.tf
            Sample.obstacle_cloud Sample.raw_cloud
            (Sample.timed_node false false))) =
  [ ("debug/cyclic_time_ms"%string, 130%float);
    ("debug/processing_time_ms"%string, 30%float) ].
Proof.
  refine
    (proj2 (proj2 (proj2
       (completed_cycle_publishes_timing_after_map
          100%float 130%float 130%float Sample.tf
          Sample.obstacle_cloud Sample.raw_cloud
          (Sample.timed_node false false)
          (Sample.watch_tic (Sample.watch_tic [] "cyclic_time" 0%float)
             "processing_time" 0%float)
          (mkDebugPublisher "pointcloud_based_occupancy_grid_map")
          eq_refl eq_refl _)))).
  vm_compute. discriminate.
Defined.

Lemma run_times_every_published_map_witness :
  List.length
    (debug_published
       (snd (spin_with_debug_tool
               (Sample.timed_node false false) Sample.timed_run))) =
  (2 * List.length
         (published
            (node_calls
               (snd (spin_with_debug_tool
                       (Sample.timed_node false false) Sample.timed_run)))))%nat.
Proof.
  exact
    (proj1 (proj2
       (run_times_every_published_map
          (Sample.options false false) 0%float 0%float
          (Sample.timed_node false false) Sample.timed_run eq_refl))).
Defined.
